(** * AI-Video-Interpreter: the front end's request lifecycle, size formatter
      and results renderer, embedded from the JavaScript sources.

    Sources embedded here:
    - [frontend/src/components/VideoUploader.jsx]   ([formatFileSize])
    - [frontend/src/components/ResultsDisplay.jsx]  ([formatResult],
      [copyToClipboard], the component body)
    - [frontend/src/services/api.js]                ([analyzeVideoFile])
    - [frontend/src/App.jsx]                        ([handleAnalyze])
    - [frontend/src/hooks/useVideoAnalysis.jsx]     ([analyzeVideo])

    Conventions.  JavaScript strings are Rocq [string]s, a character being a
    code unit below 256; [undefined]/[null] is [None]; a [File]'s size is a
    non-negative integer ([N]); the simulated progress is a rational number
    ([Q]), a superset of the finite doubles the code computes with.  An
    [async] function is cut at its [await]s: what runs up to the first one is
    a function on the state, and what runs afterwards is driven by the events
    (timer ticks, promise settlements) the environment delivers. *)

From Stdlib Require Import NArith ZArith QArith List String Ascii Bool Lia.
From Stdlib Require Import DecimalString DecimalPos DecimalN Lqa.
Import ListNotations.
Close Scope Q_scope.
Open Scope string_scope.

(** ** JavaScript primitives used by the sources *)
Module Js.

(** [a || b] where [a] is [undefined] or a string: the empty string and
    [undefined] are falsy. *)
Definition or_else (a : option string) (b : string) : string :=
  match a with
  | Some s => if String.eqb s "" then b else s
  | None => b
  end.

(** Truthiness of an [undefined]-or-string value. *)
Definition truthy (a : option string) : bool :=
  match a with
  | Some s => negb (String.eqb s "")
  | None => false
  end.

(** String concatenation with a possibly [undefined] operand
    (['x' + undefined] is ["xundefined"]). *)
Definition to_string (a : option string) : string :=
  match a with
  | Some s => s
  | None => "undefined"
  end.

Definition newline : string := String (ascii_of_nat 10) "".

(** [s.startsWith(p)], the test [String.prototype.split] makes at each
    position. *)
Fixpoint starts_with (p s : string) : bool :=
  match p, s with
  | EmptyString, _ => true
  | String a p', String b s' => Ascii.eqb a b && starts_with p' s'
  | String _ _, EmptyString => false
  end.

Fixpoint drop (n : nat) (s : string) : string :=
  match n, s with
  | O, _ => s
  | S n', String _ s' => drop n' s'
  | S _, EmptyString => EmptyString
  end.

(** [split_go sep skip s]: the pieces of [s] from the scanning position
    on; [skip] counts the characters of an already matched separator that
    are still to be passed over.  The first piece is the one being
    accumulated. *)
Fixpoint split_go (sep : string) (skip : nat) (s : string) : list string :=
  match s with
  | EmptyString => [EmptyString]
  | String c s' =>
      match skip with
      | S k => split_go sep k s'
      | O =>
          if starts_with sep s
          then EmptyString :: split_go sep (String.length sep - 1) s'
          else match split_go sep 0 s' with
               | p :: ps => String c p :: ps
               | [] => [String c EmptyString]
               end
      end
  end.

(** [s.split(sep)] for a non-empty separator: leftmost, non-overlapping
    matches; the empty string splits into one empty piece. *)
Definition split (s sep : string) : list string := split_go sep 0 s.

(** [pieces.join(sep)]. *)
Fixpoint join (sep : string) (pieces : list string) : string :=
  match pieces with
  | [] => EmptyString
  | [p] => p
  | p :: ps => p ++ sep ++ join sep ps
  end.

(** [occurs p s]: [p] is a substring of [s]. *)
Fixpoint occurs (p s : string) : bool :=
  match s with
  | EmptyString => starts_with p EmptyString
  | String _ s' => starts_with p s || occurs p s'
  end.

(** White space and line terminators of [String.prototype.trim], among the
    code units below 256: TAB, LF, VT, FF, CR, SPACE and NBSP. *)
Definition is_white_space (c : ascii) : bool :=
  let n := nat_of_ascii c in
  ((9 <=? n) && (n <=? 13))%nat || (n =? 32)%nat || (n =? 160)%nat.

Fixpoint trim_start (s : string) : string :=
  match s with
  | EmptyString => EmptyString
  | String c s' => if is_white_space c then trim_start s' else s
  end.

(** Drops trailing white space. *)
Fixpoint trim_end (s : string) : string :=
  match s with
  | EmptyString => EmptyString
  | String c s' =>
      match trim_end s' with
      | EmptyString => if is_white_space c then EmptyString else String c EmptyString
      | t => String c t
      end
  end.

Definition trim (s : string) : string := trim_end (trim_start s).


(** [array.map((x, index) => f(index, x))]. *)
Fixpoint mapi_from {A B : Type} (f : nat -> A -> B) (i : nat) (l : list A) : list B :=
  match l with
  | [] => []
  | x :: xs => f i x :: mapi_from f (S i) xs
  end.

Definition mapi {A B : Type} (f : nat -> A -> B) (l : list A) : list B :=
  mapi_from f 0 l.

End Js.

(** ** Data shared by the components *)
Module Data.

(** A browser [File]: the fields the sources read. *)
Record File := mkFile {
  file_name : string;
  file_size : N;
  file_type : string
}.

(** The JSON object the backend answers with (an [AnalysisResult], or an
    error body).  Every field may be missing; of [success] only the
    truthiness is ever read, so a missing [success] is [false]. *)
Record Payload := mkPayload {
  success : bool;
  result : option string;
  analysis_description : option string;
  error : option string;
  analysis_type : option string;
  detail : option string
}.

(** A [FormData] entry and an outbound HTTP request. *)
Inductive FormValue :=
| FormFile (f : File)
| FormText (s : string).

Record Request := mkRequest {
  req_method : string;
  req_url : string;
  req_form : list (string * FormValue)
}.

(** How a call ends: with a value, or with a thrown [Error] and its message. *)
Inductive Completion (A : Type) :=
| Returned (a : A)
| Thrown (message : string).
Arguments Returned {A} a.
Arguments Thrown {A} message.

End Data.
Import Data.

(** ** [components/VideoUploader.jsx] *)
Module VideoUploader.

(** [const k = 1024;] *)
Definition k : N := 1024.

(** [const sizes = ['Bytes', 'KB', 'MB', 'GB'];] *)
Definition sizes : list string := ["Bytes"; "KB"; "MB"; "GB"].

(** [const i = Math.floor(Math.log(bytes) / Math.log(k));] on a positive
    integer, computed exactly: the floor of the base-1024 logarithm is the
    floor of the binary logarithm divided by ten.  The quotient of the two
    double logarithms has this floor for every size below 1024^4 and for
    whole numbers of units; just below a higher power of 1024 (2^50 - 1,
    say) the doubles already give the next index, so statements about the
    number printed are kept to those sizes. *)
Definition unitIndex (bytes : N) : N := (N.log2 bytes / 10)%N.

(** [(bytes / Math.pow(k, i)).toFixed(2)], as a count of hundredths.
    Dividing an integer below 2^53 by a power of two is exact, and
    [toFixed] picks the nearest multiple of 1/100, the larger one on a
    tie: [floor (100 * bytes / k^i + 1/2)]. *)
Definition hundredths (bytes : N) : N :=
  let d := (k ^ unitIndex bytes)%N in
  ((200 * bytes + d) / (2 * d))%N.

Definition decimal (n : N) : string := NilZero.string_of_uint (N.to_uint n).

(** The fraction digits that survive [parseFloat]: trailing zeros go. *)
Definition fractionDigits (r : N) : string :=
  if (r =? 0)%N then ""
  else if (r mod 10 =? 0)%N then "." ++ decimal (r / 10)%N
  else if (r <? 10)%N then ".0" ++ decimal r
  else "." ++ decimal r.

(** [parseFloat(x.toFixed(2))] printed by string concatenation. *)
Definition numberToString (h : N) : string :=
  decimal (h / 100)%N ++ fractionDigits (h mod 100)%N.

(** [sizes[i]]: [undefined] outside the table. *)
Definition unitLabel (i : N) : option string := nth_error sizes (N.to_nat i).

Definition formatFileSize (bytes : N) : string :=
  if (bytes =? 0)%N then "0 Bytes"
  else numberToString (hundredths bytes) ++ " " ++ Js.to_string (unitLabel (unitIndex bytes)).


Definition isDigit (c : ascii) : bool :=
  let n := nat_of_ascii c in ((48 <=? n) && (n <=? 57))%nat.

(** A fraction part of at most two decimal places: nothing, or a point
    followed by one or two digits. *)
Definition atMostTwoDecimals (fraction : string) : bool :=
  match fraction with
  | EmptyString => true
  | String point digits =>
      Ascii.eqb point "." && (1 <=? String.length digits)%nat
      && (String.length digits <=? 2)%nat
      && forallb isDigit (list_ascii_of_string digits)
  end.

End VideoUploader.

(** ** [components/ResultsDisplay.jsx] *)
Module ResultsDisplay.

(** The children of a rendered paragraph: a line of text or a [<br />]. *)
Inductive Node :=
| Text (line : string)
| Br.

(** A [<p key={index}>] element. *)
Record P := mkP {
  p_key : nat;
  p_children : list Node
}.

(** One [React.Fragment]: the line, followed by [<br />] unless it is the
    last line of its paragraph. *)
Definition fragment (paragraph : string) (lineIndex : nat) (line : string) : list Node :=
  Text line ::
    (if (lineIndex <? List.length (Js.split paragraph Js.newline) - 1)%nat
     then [Br] else []).

Definition formatResult (text : string) : list P :=
  let paragraphs := Js.split text (Js.newline ++ Js.newline) in
  Js.mapi (fun index paragraph =>
             mkP index (List.concat (Js.mapi (fragment paragraph)
                                         (Js.split paragraph Js.newline))))
          paragraphs.

(** What the component shows. *)
Record View := mkView {
  view_description : option string;
  view_body : list P
}.

(** The component body: [{results.analysis_description}] and
    [{formatResult(results.result)}].  [text.split] on [undefined] throws a
    [TypeError]; the message kept here is the one for a missing field (for a
    field that is [null] the engine's text names [null] instead), and the
    statements below use only that the call throws. *)
Definition render (results : Payload) : Completion View :=
  match result results with
  | Some text => Returned (mkView (analysis_description results) (formatResult text))
  | None => Thrown "TypeError: Cannot read properties of undefined (reading 'split')"
  end.

(** [copyToClipboard]: the argument handed to
    [navigator.clipboard.writeText], which is [results.result] whatever it
    is. *)
Definition copyToClipboard (results : Payload) : option string := result results.

(** The text of a node list, a line break standing for a newline. *)
Fixpoint nodesText (nodes : list Node) : string :=
  match nodes with
  | [] => ""
  | Text line :: rest => line ++ nodesText rest
  | Br :: rest => Js.newline ++ nodesText rest
  end.

(** Number of [<br />] among the children. *)
Fixpoint breaks (nodes : list Node) : nat :=
  match nodes with
  | [] => 0
  | Text _ :: rest => breaks rest
  | Br :: rest => S (breaks rest)
  end.

(** The fragment of a line in a paragraph of [count] lines. *)
Definition lineNode (count lineIndex : nat) (line : string) : list Node :=
  Text line :: (if (lineIndex <? count - 1)%nat then [Br] else []).

(** A text node holds no newline. *)
Definition lineFree (node : Node) : Prop :=
  match node with
  | Text line => Js.occurs Js.newline line = false
  | Br => True
  end.

(** The result text of the spec's scenario B. *)
Definition scenarioB_text : string :=
  "Line1" ++ Js.newline ++ Js.newline ++ "Line2a" ++ Js.newline ++ "Line2b".

End ResultsDisplay.

(** ** [services/api.js] *)
Module Api.

(** What axios hands back for a non-2xx status: [error.response]. *)
Record AxiosResponse := mkAxiosResponse {
  status : Z;
  data : option Payload      (* [None]: no body, or a body that is no JSON object *)
}.

(** How [api.post] settles: resolved on a 2xx status with [response.data],
    rejected otherwise; [error.response] is [undefined] when no response
    arrived (network failure, timeout).  The data of a resolved call is a
    JSON object, and a [detail] is a string when it is there: a 2xx answer
    with an empty, [null] or non-object body, and a [detail] of another type
    (a list, say), are outside this type, and the statements below are about
    the answers inside it. *)
Inductive AxiosOutcome :=
| AxiosResolved (responseData : Payload)
| AxiosRejected (response : option AxiosResponse).

(** [error.response?.data?.detail] *)
Definition errorDetail (response : option AxiosResponse) : option string :=
  match response with
  | Some r => match data r with
              | Some body => detail body
              | None => None
              end
  | None => None
  end.

(** The request [analyzeVideoFile] posts. *)
Definition analyzeVideoFile_request (file : File) (analysisType : string) : Request :=
  mkRequest "POST" "/analyze-video-file"
    [("file", FormFile file); ("analysis_type", FormText analysisType)].

(** [analyzeVideoFile], given how the post settles. *)
Definition analyzeVideoFile (outcome : AxiosOutcome) : Completion Payload :=
  match outcome with
  | AxiosResolved responseData => Returned responseData
  | AxiosRejected response =>
      Thrown (Js.or_else (errorDetail response) "Failed to analyze video")
  end.

End Api.

(** ** [App.jsx] *)
Module App.

Record State := mkState {
  selectedFile : option File;
  analysisType : string;
  results : option Payload;
  loading : bool;
  error : option string
}.

Definition setResults (v : option Payload) (s : State) : State :=
  mkState (selectedFile s) (analysisType s) v (loading s) (error s).
Definition setLoading (v : bool) (s : State) : State :=
  mkState (selectedFile s) (analysisType s) (results s) v (error s).
Definition setError (v : option string) (s : State) : State :=
  mkState (selectedFile s) (analysisType s) (results s) (loading s) v.

(** [handleAnalyze] up to its [await]: the new state and the request
    issued, if any. *)
Definition handleAnalyze_begin (s : State) : State * option Request :=
  match selectedFile s with
  | Some file =>
      if String.eqb (analysisType s) ""
      then (setError (Some "Please select a video file and analysis type") s, None)
      else (setResults None (setError None (setLoading true s)),
            Some (Api.analyzeVideoFile_request file (analysisType s)))
  | None => (setError (Some "Please select a video file and analysis type") s, None)
  end.

(** [handleAnalyze] from the [await] on, given how the call settled. *)
Definition handleAnalyze_settle (outcome : Api.AxiosOutcome) (s : State) : State :=
  setLoading false
    match Api.analyzeVideoFile outcome with
    | Returned r => setResults (Some r) s
    | Thrown message =>
        setError (Some (Js.or_else (Some message) "Analysis failed. Please try again.")) s
    end.

(** A whole run of [handleAnalyze]: the final state and the requests
    issued. *)
Definition handleAnalyze (outcome : Api.AxiosOutcome) (s : State) : State * list Request :=
  match handleAnalyze_begin s with
  | (s', Some request) => (handleAnalyze_settle outcome s', [request])
  | (s', None) => (s', [])
  end.

End App.

(** ** [hooks/useVideoAnalysis.jsx] *)
Module UseVideoAnalysis.

Inductive Toast :=
| ToastError (message : string)
| ToastSuccess (message : string).

(** What [response.json()] finds in the body: nothing decodable (the
    promise rejects), the JSON value [null], or a JSON object. *)
Inductive ResponseBody :=
| Undecodable
| JsonNull
| JsonObject (payload : Payload).

(** A [fetch] response; [fetch] resolves whatever the status is. *)
Record Response := mkResponse {
  status : Z;
  body : ResponseBody
}.

(** Where the one invocation of [analyzeVideo] that the model follows
    stands: not running, suspended at [await fetch(...)], or suspended at
    [await response.json()].  The closure keeps [analysisType]. *)
Inductive Control :=
| Done
| AwaitFetch (analysisType : string)
| AwaitJson (analysisType : string) (response : Response).

(** The hook's three state cells, and around them the timers scheduled,
    the toasts shown (most recent first) and the calls issued (most recent
    first). *)
Record State := mkState {
  isAnalyzing : bool;
  result : option Payload;
  progress : Q;
  progressInterval : bool;       (* the [setInterval] timer is scheduled *)
  resetTimeouts : nat;           (* pending [setTimeout(() => setProgress(0), 1000)] *)
  toasts : list Toast;
  fetches : list Request;
  control : Control
}.

(** [useState(false)], [useState(null)], [useState(0)]. *)
Definition init : State := mkState false None 0%Q false 0 [] [] Done.

Definition intervalMs : Z := 500.
Definition resetDelayMs : Z := 1000.

Definition setIsAnalyzing (v : bool) (s : State) : State :=
  mkState v (result s) (progress s) (progressInterval s) (resetTimeouts s)
          (toasts s) (fetches s) (control s).
Definition setResult (v : option Payload) (s : State) : State :=
  mkState (isAnalyzing s) v (progress s) (progressInterval s) (resetTimeouts s)
          (toasts s) (fetches s) (control s).
Definition setProgress (v : Q) (s : State) : State :=
  mkState (isAnalyzing s) (result s) v (progressInterval s) (resetTimeouts s)
          (toasts s) (fetches s) (control s).
(** [setInterval] and [clearInterval] of the invocation followed.  The flag
    stands for that one interval, so a run is to start where no interval of
    an earlier submission is still scheduled: an interval leaked by an
    earlier submission keeps its own id and is not reached by the
    [clearInterval] of a later one. *)
Definition setInterval (s : State) : State :=
  mkState (isAnalyzing s) (result s) (progress s) true (resetTimeouts s)
          (toasts s) (fetches s) (control s).
Definition clearInterval (s : State) : State :=
  mkState (isAnalyzing s) (result s) (progress s) false (resetTimeouts s)
          (toasts s) (fetches s) (control s).
Definition setTimeout (s : State) : State :=
  mkState (isAnalyzing s) (result s) (progress s) (progressInterval s)
          (S (resetTimeouts s)) (toasts s) (fetches s) (control s).
Definition timeoutFired (s : State) : State :=
  mkState (isAnalyzing s) (result s) (progress s) (progressInterval s)
          (Nat.pred (resetTimeouts s)) (toasts s) (fetches s) (control s).
Definition toast (t : Toast) (s : State) : State :=
  mkState (isAnalyzing s) (result s) (progress s) (progressInterval s)
          (resetTimeouts s) (t :: toasts s) (fetches s) (control s).
Definition fetch (r : Request) (s : State) : State :=
  mkState (isAnalyzing s) (result s) (progress s) (progressInterval s)
          (resetTimeouts s) (toasts s) (r :: fetches s) (control s).
Definition goto (c : Control) (s : State) : State :=
  mkState (isAnalyzing s) (result s) (progress s) (progressInterval s)
          (resetTimeouts s) (toasts s) (fetches s) c.

(** The [FormData] built before the call. *)
Definition formData (file : File) (analysisType : string)
           (customPrompt : option string) : list (string * FormValue) :=
  [("video_file", FormFile file); ("analysis_type", FormText analysisType)]
    ++ (if String.eqb analysisType "custom"
        then [("custom_prompt", FormText (Js.to_string customPrompt))]
        else []).

(** [!customPrompt?.trim()] *)
Definition promptMissing (customPrompt : option string) : bool :=
  negb (Js.truthy (option_map Js.trim customPrompt)).

(** [analyzeVideo] from its entry to [await fetch(...)]. *)
Definition analyzeVideo (file : option File) (analysisType : string)
           (customPrompt : option string) (s : State) : State :=
  match file with
  | None => toast (ToastError "Please select a video file first") s
  | Some f =>
      if String.eqb analysisType "custom" && promptMissing customPrompt
      then toast (ToastError "Please enter a custom prompt for analysis") s
      else
        let s := setResult None (setProgress 0%Q (setIsAnalyzing true s)) in
        let s := setInterval s in
        let s := fetch (mkRequest "POST" "http://localhost:8000/analyze-video"
                                  (formData f analysisType customPrompt)) s in
        goto (AwaitFetch analysisType) s
  end.

(** The interval callback, [r] being [Math.random() * 10]. *)
Definition progressTick (r : Q) (s : State) : State :=
  if Qle_bool 90%Q (progress s)
  then setProgress 90%Q (clearInterval s)
  else setProgress (progress s + r)%Q s.

(** The [catch] block. *)
Definition catchBlock (analysisType : string) (s : State) : State :=
  setResult (Some (mkPayload false None None (Some "Network error occurred")
                             (Some analysisType) None))
            (toast (ToastError "Failed to analyze video. Please check your connection.") s).

(** The [finally] block. *)
Definition finallyBlock (s : State) : State :=
  goto Done (setTimeout (setIsAnalyzing false s)).

(** The branch on [data.success]. *)
Definition interpret (payload : Payload) (s : State) : State :=
  if success payload
  then toast (ToastSuccess "Video analysis completed!") (setResult (Some payload) s)
  else setResult (Some payload)
                 (toast (ToastError (Js.or_else (error payload) "Analysis failed")) s).

(** What can happen after [analyzeVideo] has suspended. *)
Inductive Event :=
| Tick (r : Q)                       (* the interval fires *)
| FetchRejected                      (* [fetch] throws: no response *)
| FetchResolved (response : Response)
| JsonSettled                        (* [response.json()] settles *)
| ResetFired.                        (* the [finally] block's timeout fires *)

(** An event that its timer or promise cannot deliver leaves the state
    alone. *)
Definition step (s : State) (e : Event) : State :=
  match e with
  | Tick r => if progressInterval s then progressTick r s else s
  | FetchRejected =>
      match control s with
      | AwaitFetch analysisType => finallyBlock (catchBlock analysisType s)
      | _ => s
      end
  | FetchResolved response =>
      match control s with
      | AwaitFetch analysisType =>
          goto (AwaitJson analysisType response) (setProgress 100%Q (clearInterval s))
      | _ => s
      end
  | JsonSettled =>
      match control s with
      | AwaitJson analysisType response =>
          match body response with
          | JsonObject payload => finallyBlock (interpret payload s)
          | JsonNull => finallyBlock (catchBlock analysisType s)
          | Undecodable => finallyBlock (catchBlock analysisType s)
          end
      | _ => s
      end
  | ResetFired =>
      match resetTimeouts s with
      | O => s
      | S _ => setProgress 0%Q (timeoutFired s)
      end
  end.

Definition run (s : State) (events : list Event) : State :=
  fold_left step events s.

(** [Math.random()] is in [0, 1). *)
Definition validEvent (e : Event) : Prop :=
  match e with
  | Tick r => (0 <= r /\ r < 10)%Q
  | _ => True
  end.

(** The lifecycle state the three cells stand for. *)
Inductive LifecycleState := Idle | InFlight | Succeeded | Failed.

Definition lifecycle (s : State) : LifecycleState :=
  if isAnalyzing s then InFlight
  else match result s with
       | None => Idle
       | Some payload => if success payload then Succeeded else Failed
       end.

(** The timer still fires: a tick is delivered. *)
Definition timerFires (s : State) : Prop := progressInterval s = true.

(** The ways the call can fail at the transport level: no response at all,
    or a response whose body does not decode. *)
Inductive transportFailure : list Event -> Prop :=
| NoResponse : transportFailure [FetchRejected]
| UndecodableBody (status : Z) :
    transportFailure [FetchResolved (mkResponse status Undecodable); JsonSettled].

(** The value the [catch] block stores. *)
Definition syntheticResult (message analysisType : string) : Payload :=
  mkPayload false None None (Some message) (Some analysisType) None.

(** The prompt is missing, or empty once trimmed. *)
Definition blankPrompt (customPrompt : option string) : Prop :=
  match customPrompt with
  | None => True
  | Some prompt => Js.trim prompt = ""
  end.

(** The request [analyzeVideo] sends. *)
Definition analyzeVideo_request (file : File) (analysisType : string)
           (customPrompt : option string) : Request :=
  mkRequest "POST" "http://localhost:8000/analyze-video"
            (formData file analysisType customPrompt).

(** The two guards of [analyzeVideo] let the call through. *)
Definition accepted (analysisType : string) (customPrompt : option string) : Prop :=
  String.eqb analysisType "custom" && promptMissing customPrompt = false.

End UseVideoAnalysis.

(** ** Sample inputs *)
Module Scenario.

Definition clip : File := mkFile "clip.mp4" 1048576 "video/mp4".

(** A remote failure report without a [result] field. *)
Definition failureReport : Payload :=
  mkPayload false None None (Some "model unavailable") None None.

(** A state of [App] with a file and an analysis type chosen. *)
Definition ready : App.State :=
  App.mkState (Some clip) "technical_analysis" None false None.

(** HTTP 500 with body [{"detail": d}]. *)
Definition serverError (d : string) : Api.AxiosOutcome :=
  Api.AxiosRejected
    (Some (Api.mkAxiosResponse 500 (Some (mkPayload false None None None None (Some d))))).

(** A submission whose call throws before the first tick. *)
Definition rejected : UseVideoAnalysis.State :=
  UseVideoAnalysis.step
    (UseVideoAnalysis.analyzeVideo (Some clip) "detailed_summary" None
                                   UseVideoAnalysis.init)
    UseVideoAnalysis.FetchRejected.

(** A custom-prompt submission answered, after two ticks, by HTTP 502 with a
    body that does not decode. *)
Definition badGateway : UseVideoAnalysis.State :=
  UseVideoAnalysis.run
    (UseVideoAnalysis.analyzeVideo (Some clip) "custom" (Some "What happens?")
                                   UseVideoAnalysis.init)
    (map UseVideoAnalysis.Tick [(7 # 2)%Q; (9 # 1)%Q]
         ++ [UseVideoAnalysis.FetchResolved
               (UseVideoAnalysis.mkResponse 502 UseVideoAnalysis.Undecodable);
             UseVideoAnalysis.JsonSettled]).

(** A submission answered by the failure report. *)
Definition reportedFailure : UseVideoAnalysis.State :=
  UseVideoAnalysis.run
    (UseVideoAnalysis.analyzeVideo (Some clip) "detailed_summary" None
                                   UseVideoAnalysis.init)
    [UseVideoAnalysis.FetchResolved
       (UseVideoAnalysis.mkResponse 200 (UseVideoAnalysis.JsonObject failureReport));
     UseVideoAnalysis.JsonSettled].

(** Eleven interval ticks with [Math.random()] at 0.875. *)
Definition elevenTicks : list UseVideoAnalysis.Event :=
  repeat (UseVideoAnalysis.Tick (35 # 4)) 11.

(** A submission still in flight after those ticks. *)
Definition afterElevenTicks : UseVideoAnalysis.State :=
  UseVideoAnalysis.run
    (UseVideoAnalysis.analyzeVideo (Some clip) "detailed_summary" None
                                   UseVideoAnalysis.init)
    elevenTicks.

End Scenario.

(** ** [services/api.js]: the other calls *)
Module Services.

(** How an [api.get] or [api.post] settles, for any shape of [response.data]. *)
Inductive Settled (A : Type) :=
| Resolved (responseData : A)
| Rejected (response : option Api.AxiosResponse).
Arguments Resolved {A} responseData.
Arguments Rejected {A} response.

(** One entry of the catalogue: the field the components read. *)
Record OptionInfo := mkOptionInfo {
  description : option string
}.

(** The body of [GET /analysis-options].  The mapping is kept as
    [Object.entries] lists it: keys are distinct, in enumeration order;
    [None] when the field is missing. *)
Record OptionsReply := mkOptionsReply {
  analysis_options : option (list (string * OptionInfo))
}.

Definition getAnalysisOptions (outcome : Settled OptionsReply) : Completion OptionsReply :=
  match outcome with
  | Resolved responseData => Returned responseData
  | Rejected response =>
      Thrown (Js.or_else (Api.errorDetail response) "Failed to fetch analysis options")
  end.




(** The message of a thrown completion. *)
Definition thrownMessage {A : Type} (c : Completion A) : option string :=
  match c with
  | Returned _ => None
  | Thrown message => Some message
  end.

End Services.

(** ** [App.jsx]: the other handlers and the page *)
Module AppHandlers.

Definition setSelectedFile (v : option File) (s : App.State) : App.State :=
  App.mkState v (App.analysisType s) (App.results s) (App.loading s) (App.error s).
Definition setAnalysisType (v : string) (s : App.State) : App.State :=
  App.mkState (App.selectedFile s) v (App.results s) (App.loading s) (App.error s).

(** The five cells as [useState] initialises them. *)
Definition initial : App.State := App.mkState None "" None false None.

Definition handleFileSelect (file : option File) (s : App.State) : App.State :=
  App.setError None (App.setResults None (setSelectedFile file s)).

Definition handleAnalysisTypeChange (type : string) (s : App.State) : App.State :=
  setAnalysisType type s.

Definition handleReset (s : App.State) : App.State :=
  App.setError None (App.setResults None (setAnalysisType "" (setSelectedFile None s))).

(** The sixth cell, [analysisOptions], beside the other five. *)
Record Page := mkPage {
  cells : App.State;
  analysisOptions : option (list (string * Services.OptionInfo))
}.

(** [useState({})]: an object without entries. *)
Definition initialPage : Page := mkPage initial (Some []).

(** [fetchAnalysisOptions], given how the request settled. *)
Definition fetchAnalysisOptions (outcome : Services.Settled Services.OptionsReply)
           (p : Page) : Page :=
  match Services.getAnalysisOptions outcome with
  | Returned options => mkPage (cells p) (Services.analysis_options options)
  | Thrown _ =>
      mkPage (App.setError (Some "Failed to fetch analysis options") (cells p))
             (analysisOptions p)
  end.

(** [disabled={!selectedFile || !analysisType || loading}] *)
Definition analyzeDisabled (s : App.State) : bool :=
  match App.selectedFile s with
  | Some _ => String.eqb (App.analysisType s) "" || App.loading s
  | None => true
  end.

(** [disabled={loading}] *)
Definition resetDisabled (s : App.State) : bool := App.loading s.

(** The children of the results column. *)
Inductive Panel :=
| Spinner
| ResultsPanel (results : Payload)
| Placeholder.

(** [{loading && ...} {results && !loading && ...} {!results && !loading && ...}] *)
Definition rightColumn (s : App.State) : list Panel :=
  ((if App.loading s then [Spinner] else [])
   ++ (match App.results s with
       | Some r => if negb (App.loading s) then [ResultsPanel r] else []
       | None => []
       end)
   ++ (match App.results s with
       | Some _ => []
       | None => if negb (App.loading s) then [Placeholder] else []
       end))%list.

(** [{error && ...}]: the banner text, if one is shown. *)
Definition errorBanner (s : App.State) : option string :=
  if Js.truthy (App.error s) then App.error s else None.

(** What the user and the network can do to the page.  A disabled button
    delivers no click; the drop zone is rendered only without a file, the
    remove button only with one. *)
Inductive UserEvent :=
| ClickAnalyze
| ClickReset
| Drop (acceptedFiles : list File)
| Remove
| Choose (key : string)
| Settle (outcome : Api.AxiosOutcome).

(** The page cells, the calls awaiting settlement and every call issued
    (most recent first). *)
Record Session := mkSession {
  page : App.State;
  outstanding : nat;
  sent : list Request
}.

Definition start : Session := mkSession initial 0 [].

(** [onDrop] of the uploader: [acceptedFiles[0]] goes to [onFileSelect] when
    the list is not empty. *)
Definition onDrop {S : Type} (onFileSelect : option File -> S -> S)
           (acceptedFiles : list File) (s : S) : S :=
  if (0 <? List.length acceptedFiles)%nat
  then onFileSelect (nth_error acceptedFiles 0) s
  else s.

(** [removeFile] of the uploader. *)
Definition removeFile {S : Type} (onFileSelect : option File -> S -> S) (s : S) : S :=
  onFileSelect None s.

Definition deliver (u : Session) (e : UserEvent) : Session :=
  match e with
  | ClickAnalyze =>
      if analyzeDisabled (page u) then u
      else match App.handleAnalyze_begin (page u) with
           | (s', Some request) => mkSession s' (S (outstanding u)) (request :: sent u)
           | (s', None) => mkSession s' (outstanding u) (sent u)
           end
  | ClickReset =>
      if resetDisabled (page u) then u
      else mkSession (handleReset (page u)) (outstanding u) (sent u)
  | Drop acceptedFiles =>
      match App.selectedFile (page u) with
      | Some _ => u
      | None => mkSession (onDrop handleFileSelect acceptedFiles (page u))
                          (outstanding u) (sent u)
      end
  | Remove =>
      match App.selectedFile (page u) with
      | Some _ => mkSession (removeFile handleFileSelect (page u))
                            (outstanding u) (sent u)
      | None => u
      end
  | Choose key =>
      mkSession (handleAnalysisTypeChange key (page u)) (outstanding u) (sent u)
  | Settle outcome =>
      match outstanding u with
      | O => u
      | S n => mkSession (App.handleAnalyze_settle outcome (page u)) n (sent u)
      end
  end.

Definition session (events : list UserEvent) : Session :=
  fold_left deliver events start.

(** While a call is awaited [loading] is set, and only then. *)
Definition settled_or_loading (u : Session) : Prop :=
  outstanding u = if App.loading (page u) then 1%nat else 0%nat.

(** Results and message are not set together, and neither while loading. *)
Definition outputs_consistent (s : App.State) : Prop :=
  (App.loading s = true -> App.results s = None /\ App.error s = None)
  /\ (App.results s = None \/ App.error s = None).

(** Every call issued carries a file and a non-empty analysis type. *)
Definition well_formed_calls (u : Session) : Prop :=
  Forall (fun request =>
            exists file type,
              request = Api.analyzeVideoFile_request file type /\ type <> "")
         (sent u).

End AppHandlers.

(** ** [components/VideoUploader.jsx]: what the uploader shows *)
Module UploaderView.

Inductive View :=
| Dropzone
| FileCard (name size : string).

(** [{!selectedFile ? drop zone : card}] *)
Definition render (selectedFile : option File) : View :=
  match selectedFile with
  | None => Dropzone
  | Some f => FileCard (file_name f) (VideoUploader.formatFileSize (file_size f))
  end.

End UploaderView.

(** ** [components/AnalysisOptions.jsx] *)
Module AnalysisOptions.

Definition optionLabels : list (string * string) :=
  [("detailed_summary", "Detailed Summary");
   ("bullet_summary", "Bullet Point Summary");
   ("timestamped_summary", "Timestamped Summary");
   ("quiz_generation", "Generate Quiz");
   ("technical_analysis", "Technical Analysis");
   ("object_identification", "Object Identification")].

(** The names an object literal inherits from [Object.prototype]: looking
    one up gives a function or an object, not [undefined]. *)
Definition inheritedNames : list string :=
  ["constructor"; "__defineGetter__"; "__defineSetter__"; "hasOwnProperty";
   "__lookupGetter__"; "__lookupSetter__"; "isPrototypeOf"; "propertyIsEnumerable";
   "toString"; "valueOf"; "__proto__"; "toLocaleString"].

Fixpoint lookup (key : string) (table : list (string * string)) : option string :=
  match table with
  | [] => None
  | (k, v) :: rest => if String.eqb key k then Some v else lookup key rest
  end.

(** The child of the [<h3>]: a text, or the inherited value found under the
    key. *)
Inductive Heading :=
| HeadingText (text : string)
| HeadingInherited (name : string).

(** [optionLabels[key] || key] *)
Definition heading (key : string) : Heading :=
  match lookup key optionLabels with
  | Some label => HeadingText (Js.or_else (Some label) key)
  | None =>
      if existsb (String.eqb key) inheritedNames
      then HeadingInherited key
      else HeadingText key
  end.

(** One [<label>] with its radio input. *)
Record Entry := mkEntry {
  entry_key : string;
  entry_checked : bool;
  entry_heading : Heading;
  entry_description : option string
}.

(** [Object.entries(options).map(([key, option]) => ...)] *)
Definition render (options : list (string * Services.OptionInfo))
           (selectedType : string) : list Entry :=
  map (fun entry =>
         mkEntry (fst entry) (String.eqb selectedType (fst entry))
                 (heading (fst entry)) (Services.description (snd entry)))
      options.

(** The component on [options]: [Object.entries(undefined)] throws. *)
Definition component (options : option (list (string * Services.OptionInfo)))
           (selectedType : string) : Completion (list Entry) :=
  match options with
  | Some entries => Returned (render entries selectedType)
  | None => Thrown "TypeError: Cannot convert undefined or null to object"
  end.

Definition checkedCount (entries : list Entry) : nat :=
  List.length (filter entry_checked entries).

End AnalysisOptions.

(** ** [components/ResultsDisplay.jsx]: the copy button *)
Module CopyButton.

(** [copied], the [setTimeout(() => setCopied(false), 2000)] callbacks still
    pending, the arguments handed to [writeText] so far (most recent first)
    and the number of [console.error] calls. *)
Record State := mkState {
  copied : bool;
  timeouts : nat;
  written : list (option string);
  logged : nat
}.

Definition init : State := mkState false 0 [] 0.

Definition revertDelayMs : Z := 2000.

(** A click on the button with the write's outcome, or a pending timeout
    firing. *)
Inductive Event :=
| Copy (results : Payload) (writeSucceeds : bool)
| TimeoutFired.

Definition step (s : State) (e : Event) : State :=
  match e with
  | Copy results true =>
      mkState true (S (timeouts s))
              (ResultsDisplay.copyToClipboard results :: written s) (logged s)
  | Copy results false =>
      mkState (copied s) (timeouts s)
              (ResultsDisplay.copyToClipboard results :: written s) (S (logged s))
  | TimeoutFired =>
      match timeouts s with
      | O => s
      | S n => mkState false n (written s) (logged s)
      end
  end.

Definition run (s : State) (events : list Event) : State := fold_left step events s.

(** [{copied ? 'Copied!' : 'Copy'}] *)
Definition label (s : State) : string := if copied s then "Copied!" else "Copy".

End CopyButton.

(** ** Sample catalogue *)
Module SampleOptions.

(** The catalogue of the spec's scenario A. *)
Definition scenarioA : list (string * Services.OptionInfo) :=
  [("detailed_summary", Services.mkOptionInfo (Some "A detailed summary"));
   ("quiz_generation", Services.mkOptionInfo (Some "A quiz"))].

End SampleOptions.

(** ** Sample runs of the hook *)
Module SampleRuns.

(** A payload reporting success. *)
Definition successReport : Payload :=
  mkPayload true (Some ResultsDisplay.scenarioB_text) (Some "Technical") None None None.

(** HTTP 500 whose body reports success, after one tick. *)
Definition succeeded : UseVideoAnalysis.State :=
  UseVideoAnalysis.run
    (UseVideoAnalysis.analyzeVideo (Some Scenario.clip) "technical_analysis" None
                                   UseVideoAnalysis.init)
    (map UseVideoAnalysis.Tick [(35 # 4)%Q]
         ++ [UseVideoAnalysis.FetchResolved
               (UseVideoAnalysis.mkResponse 500 (UseVideoAnalysis.JsonObject successReport));
             UseVideoAnalysis.JsonSettled]).

(** HTTP 500 with the body [{"detail": "model unavailable"}], after one tick. *)
Definition detailOnly : UseVideoAnalysis.State :=
  UseVideoAnalysis.run
    (UseVideoAnalysis.analyzeVideo (Some Scenario.clip) "technical_analysis" None
                                   UseVideoAnalysis.init)
    (map UseVideoAnalysis.Tick [(35 # 4)%Q]
         ++ [UseVideoAnalysis.FetchResolved
               (UseVideoAnalysis.mkResponse
                  500 (UseVideoAnalysis.JsonObject
                         (mkPayload false None None None None (Some "model unavailable"))));
             UseVideoAnalysis.JsonSettled]).

(** HTTP 200 with the body [null]. *)
Definition nullBody : UseVideoAnalysis.State :=
  UseVideoAnalysis.run
    (UseVideoAnalysis.analyzeVideo (Some Scenario.clip) "technical_analysis" None
                                   UseVideoAnalysis.init)
    [UseVideoAnalysis.FetchResolved
       (UseVideoAnalysis.mkResponse 200 UseVideoAnalysis.JsonNull);
     UseVideoAnalysis.JsonSettled].

(** A 2xx body that reports a failure and still carries a text. *)
Definition partialReport : Payload :=
  mkPayload false (Some "Partial text") (Some "Technical") (Some "quota exceeded")
            None None.

End SampleRuns.

(** ** Reading a printed size back *)
Module SizeReader.










End SizeReader.

(** * Properties *)

(** ** [String.prototype.split] and [Array.prototype.join] *)
Section SplitJoin.

Variable sep : string.
Hypothesis sep_nonempty : sep <> "".

Lemma starts_with_drop (p s : string) :
  Js.starts_with p s = true -> s = p ++ Js.drop (String.length p) s.
Proof.
  revert s; induction p as [|a p IH]; intros s H; [reflexivity|].
  destruct s as [|b s]; simpl in H; [discriminate|].
  apply andb_true_iff in H as [Hab Hps].
  apply Ascii.eqb_eq in Hab; subst b.
  simpl; f_equal; apply IH, Hps.
Qed.

Lemma starts_with_length (p s : string) :
  Js.starts_with p s = true -> (String.length p <= String.length s)%nat.
Proof.
  revert s; induction p as [|a p IH]; intros s H; simpl; [lia|].
  destruct s as [|b s]; simpl in H; [discriminate|].
  apply andb_true_iff in H as [_ Hps]; apply IH in Hps; simpl; lia.
Qed.

Lemma starts_with_append (p s t : string) :
  Js.starts_with p s = true -> Js.starts_with p (s ++ t) = true.
Proof.
  revert s; induction p as [|a p IH]; intros s H; [reflexivity|].
  destruct s as [|b s]; simpl in H; [discriminate|].
  apply andb_true_iff in H as [Hab Hps].
  simpl; rewrite Hab; apply IH, Hps.
Qed.

Lemma drop_length (n : nat) (s : string) :
  (String.length (Js.drop n s) <= String.length s)%nat.
Proof.
  revert s; induction n as [|n IH]; intros [|c s]; simpl; try lia.
  specialize (IH s); lia.
Qed.

Lemma split_go_skip (s : string) (k : nat) :
  (k <= String.length s)%nat ->
  Js.split_go sep k s = Js.split_go sep 0 (Js.drop k s).
Proof.
  revert k; induction s as [|c s IH]; intros [|k] Hk; simpl in *; try reflexivity; try lia.
  apply IH; lia.
Qed.

Lemma split_go_not_nil (s : string) (k : nat) : Js.split_go sep k s <> [].
Proof.
  revert k; induction s as [|c s IH]; intros k; simpl; [discriminate|].
  destruct k as [|k]; [|apply IH].
  destruct (Js.starts_with sep (String c s)); [discriminate|].
  destruct (Js.split_go sep 0 s); discriminate.
Qed.

Lemma join_cons (p : string) (ps : list string) :
  ps <> [] -> Js.join sep (p :: ps) = p ++ sep ++ Js.join sep ps.
Proof. destruct ps; [congruence | reflexivity]. Qed.

Lemma join_cons_char (c : ascii) (p : string) (ps : list string) :
  Js.join sep (String c p :: ps) = String c (Js.join sep (p :: ps)).
Proof. destruct ps; reflexivity. Qed.

Lemma sep_length : exists n, String.length sep = S n.
Proof.
  pose proof sep_nonempty as H.
  destruct sep as [|a p]; [congruence | eexists; reflexivity].
Qed.

Lemma drop_sep_cons (c : ascii) (s : string) :
  Js.drop (String.length sep) (String c s) = Js.drop (String.length sep - 1) s.
Proof.
  destruct sep_length as [n Hn]; rewrite Hn; simpl.
  rewrite Nat.sub_0_r; reflexivity.
Qed.

Lemma drop_sep_shorter (c : ascii) (s : string) :
  (String.length (Js.drop (String.length sep) (String c s)) <= String.length s)%nat.
Proof. rewrite drop_sep_cons; apply drop_length. Qed.

(** What a match leaves to scan. *)
Lemma split_go_match (c : ascii) (s : string) :
  Js.starts_with sep (String c s) = true ->
  Js.split_go sep 0 (String c s)
  = "" :: Js.split_go sep 0 (Js.drop (String.length sep) (String c s)).
Proof.
  intros H; simpl Js.split_go; rewrite H.
  pose proof (starts_with_length _ _ H) as Hlen; simpl in Hlen.
  rewrite split_go_skip, drop_sep_cons by lia.
  reflexivity.
Qed.

Lemma join_split_bounded (n : nat) (s : string) :
  (String.length s <= n)%nat -> Js.join sep (Js.split s sep) = s.
Proof.
  unfold Js.split; revert s; induction n as [|n IH]; intros [|c s] Hn;
    simpl in Hn; try reflexivity; try lia.
  destruct (Js.starts_with sep (String c s)) eqn:E.
  - rewrite (split_go_match _ _ E), join_cons by apply split_go_not_nil.
    rewrite IH.
    + simpl; symmetry; apply starts_with_drop, E.
    + pose proof (drop_sep_shorter c s); lia.
  - simpl Js.split_go; rewrite E.
    specialize (IH s ltac:(lia)).
    destruct (Js.split_go sep 0 s) as [|p ps] eqn:Es;
      [exfalso; eapply split_go_not_nil; eassumption|].
    rewrite join_cons_char, IH; reflexivity.
Qed.

(** Joining the pieces with the separator gives the string back. *)
Lemma join_split (s : string) : Js.join sep (Js.split s sep) = s.
Proof. apply (join_split_bounded (String.length s)); lia. Qed.

Lemma split_head_prefix (s p : string) (ps : list string) :
  Js.split s sep = p :: ps -> exists t, s = p ++ t.
Proof.
  intros H; pose proof (join_split s) as J; rewrite H in J.
  destruct ps as [|q qs]; simpl in J.
  - exists ""; rewrite <- J; clear; induction p; simpl; congruence.
  - eexists; symmetry; exact J.
Qed.

Lemma occurs_empty : Js.occurs sep "" = false.
Proof.
  pose proof sep_nonempty as H.
  destruct sep; [congruence | reflexivity].
Qed.

Lemma split_pieces_bounded (n : nat) (s : string) :
  (String.length s <= n)%nat ->
  Forall (fun piece => Js.occurs sep piece = false) (Js.split s sep).
Proof.
  revert s; induction n as [|n IH]; intros [|c s] Hn; simpl in Hn; try lia;
    try (constructor; [apply occurs_empty | constructor]).
  unfold Js.split.
  destruct (Js.starts_with sep (String c s)) eqn:E.
  - rewrite (split_go_match _ _ E); constructor; [apply occurs_empty|].
    apply IH. pose proof (drop_sep_shorter c s); lia.
  - simpl Js.split_go; rewrite E.
    specialize (IH s ltac:(lia)); unfold Js.split in IH.
    destruct (Js.split_go sep 0 s) as [|p ps] eqn:Es;
      [exfalso; eapply split_go_not_nil; eassumption|].
    inversion IH as [|? ? Hp Hps]; subst.
    constructor; [|assumption].
    simpl; rewrite Hp, orb_false_r.
    destruct (Js.starts_with sep (String c p)) eqn:Ep; [|reflexivity].
    destruct (split_head_prefix s p ps Es) as [t Ht].
    apply (starts_with_append _ _ t) in Ep; simpl in Ep.
    rewrite <- Ht in Ep; congruence.
Qed.

(** No piece contains the separator. *)
Lemma split_pieces (s : string) :
  Forall (fun piece => Js.occurs sep piece = false) (Js.split s sep).
Proof. apply (split_pieces_bounded (String.length s)); lia. Qed.

End SplitJoin.

(** ** The results renderer *)

Lemma append_empty (s : string) : s ++ "" = s.
Proof. induction s; simpl; congruence. Qed.

Lemma append_assoc (a b c : string) : (a ++ b) ++ c = a ++ b ++ c.
Proof. induction a; simpl; congruence. Qed.

Lemma newline_nonempty : Js.newline <> "".
Proof. discriminate. Qed.

Lemma blank_line_nonempty : Js.newline ++ Js.newline <> "".
Proof. discriminate. Qed.

Lemma map_mapi_from {A B C : Type} (h : B -> C) (g : nat -> A -> B) (f : A -> C)
      (l : list A) (i : nat) :
  (forall j x, h (g j x) = f x) -> map h (Js.mapi_from g i l) = map f l.
Proof.
  intros H; revert i; induction l as [|x l IH]; intros i; simpl; [reflexivity|].
  rewrite H, IH; reflexivity.
Qed.

Lemma nodesText_app (a b : list ResultsDisplay.Node) :
  ResultsDisplay.nodesText (a ++ b)
  = ResultsDisplay.nodesText a ++ ResultsDisplay.nodesText b.
Proof.
  induction a as [|[line|] a IH]; simpl; [reflexivity| |]; rewrite IH.
  - clear; induction line; simpl; congruence.
  - reflexivity.
Qed.

Lemma breaks_app (a b : list ResultsDisplay.Node) :
  ResultsDisplay.breaks (a ++ b)
  = (ResultsDisplay.breaks a + ResultsDisplay.breaks b)%nat.
Proof. induction a as [|[line|] a IH]; simpl; congruence. Qed.

Lemma lineNode_last (count i : nat) (line : string) :
  (i + 1 = count)%nat ->
  ResultsDisplay.lineNode count i line = [ResultsDisplay.Text line].
Proof.
  intros H; unfold ResultsDisplay.lineNode.
  replace (i <? count - 1)%nat with false by (symmetry; apply Nat.ltb_ge; lia).
  reflexivity.
Qed.

Lemma lineNode_inner (count i : nat) (line : string) :
  (i + 1 < count)%nat ->
  ResultsDisplay.lineNode count i line = [ResultsDisplay.Text line; ResultsDisplay.Br].
Proof.
  intros H; unfold ResultsDisplay.lineNode.
  replace (i <? count - 1)%nat with true by (symmetry; apply Nat.ltb_lt; lia).
  reflexivity.
Qed.

(** The fragments of a paragraph spell its lines joined by newlines. *)
Lemma nodesText_fragments (count : nat) (lines : list string) (i : nat) :
  (i + List.length lines = count)%nat ->
  ResultsDisplay.nodesText (List.concat (Js.mapi_from (ResultsDisplay.lineNode count) i lines))
  = Js.join Js.newline lines.
Proof.
  revert i; induction lines as [|line rest IH]; intros i Hi; [reflexivity|].
  change (Js.mapi_from (ResultsDisplay.lineNode count) i (line :: rest))
    with (ResultsDisplay.lineNode count i line
          :: Js.mapi_from (ResultsDisplay.lineNode count) (S i) rest).
  change (List.concat (?x :: ?l)) with (x ++ List.concat l)%list.
  rewrite nodesText_app.
  destruct rest as [|next rest']; simpl in Hi.
  - rewrite lineNode_last by lia; simpl. rewrite !append_empty; reflexivity.
  - rewrite lineNode_inner by lia.
    rewrite IH by (simpl; lia).
    rewrite (join_cons Js.newline line (next :: rest')) by discriminate.
    generalize (Js.join Js.newline (next :: rest')); intros joined.
    change (ResultsDisplay.nodesText [ResultsDisplay.Text line; ResultsDisplay.Br])
      with (line ++ Js.newline ++ "").
    rewrite (append_empty Js.newline); apply append_assoc.
Qed.

(** One [<br />] per line but the last. *)
Lemma breaks_fragments (count : nat) (lines : list string) (i : nat) :
  (i + List.length lines = count)%nat ->
  ResultsDisplay.breaks (List.concat (Js.mapi_from (ResultsDisplay.lineNode count) i lines))
  = (List.length lines - 1)%nat.
Proof.
  revert i; induction lines as [|line rest IH]; intros i Hi; [reflexivity|].
  change (Js.mapi_from (ResultsDisplay.lineNode count) i (line :: rest))
    with (ResultsDisplay.lineNode count i line
          :: Js.mapi_from (ResultsDisplay.lineNode count) (S i) rest).
  change (List.concat (?x :: ?l)) with (x ++ List.concat l)%list.
  rewrite breaks_app.
  destruct rest as [|next rest']; simpl in Hi.
  - rewrite lineNode_last by lia; reflexivity.
  - rewrite lineNode_inner, IH by (simpl; lia). simpl; lia.
Qed.

Lemma lineFree_fragments (count : nat) (lines : list string) (i : nat) :
  Forall (fun line => Js.occurs Js.newline line = false) lines ->
  Forall ResultsDisplay.lineFree (List.concat (Js.mapi_from (ResultsDisplay.lineNode count) i lines)).
Proof.
  intros H; revert i; induction H as [|line rest Hline _ IH]; intros i; [constructor|].
  simpl; constructor; [exact Hline|].
  destruct (i <? count - 1)%nat; simpl; [constructor; [exact I|]|]; apply IH.
Qed.

Lemma Forall_mapi_from {A B : Type} (P : B -> Prop) (g : nat -> A -> B)
      (l : list A) (i : nat) :
  (forall j x, P (g j x)) -> Forall P (Js.mapi_from g i l).
Proof.
  intros H; revert i; induction l as [|x l IH]; intros i; simpl; constructor; auto.
Qed.

Lemma keys_mapi_from {A : Type} (children : A -> list ResultsDisplay.Node)
      (l : list A) (i : nat) :
  map ResultsDisplay.p_key
      (Js.mapi_from (fun index x => ResultsDisplay.mkP index (children x)) i l)
  = seq i (List.length l).
Proof.
  revert i; induction l as [|x l IH]; intros i; simpl; [reflexivity|].
  rewrite IH; reflexivity.
Qed.

Lemma fragment_lineNode (paragraph : string) :
  ResultsDisplay.fragment paragraph
  = ResultsDisplay.lineNode (List.length (Js.split paragraph Js.newline)).
Proof. reflexivity. Qed.

(** C8.  For every result text, [formatResult] yields one paragraph per
    piece of the split on double newlines, keyed by position; the text of a
    paragraph, reading each [<br />] as a newline, is exactly its piece, so
    joining the paragraphs by blank lines gives the text back; no paragraph
    contains a blank line and no text node a newline, a paragraph of [n]
    lines carrying [n - 1] breaks; and the text of scenario B renders as the
    two paragraphs [Line1] and [Line2a <br /> Line2b]. *)
Theorem formatResult_paragraphs_and_breaks :
  (forall text : string,
     let paragraphs := Js.split text (Js.newline ++ Js.newline) in
     let rendered := ResultsDisplay.formatResult text in
     map (fun p => ResultsDisplay.nodesText (ResultsDisplay.p_children p)) rendered
     = paragraphs
     /\ map ResultsDisplay.p_key rendered = seq 0 (List.length paragraphs)
     /\ Js.join (Js.newline ++ Js.newline)
          (map (fun p => ResultsDisplay.nodesText (ResultsDisplay.p_children p)) rendered)
        = text
     /\ Forall (fun paragraph => Js.occurs (Js.newline ++ Js.newline) paragraph = false)
               paragraphs
     /\ Forall (fun p => Forall ResultsDisplay.lineFree (ResultsDisplay.p_children p)) rendered
     /\ map (fun p => ResultsDisplay.breaks (ResultsDisplay.p_children p)) rendered
        = map (fun paragraph =>
                 (List.length (Js.split paragraph Js.newline) - 1)%nat) paragraphs)
  /\ ResultsDisplay.formatResult ResultsDisplay.scenarioB_text
     = [ResultsDisplay.mkP 0 [ResultsDisplay.Text "Line1"];
        ResultsDisplay.mkP 1 [ResultsDisplay.Text "Line2a"; ResultsDisplay.Br;
                              ResultsDisplay.Text "Line2b"]].
Proof.
  split; [|reflexivity].
  intros text paragraphs rendered.
  assert (Htext : map (fun p => ResultsDisplay.nodesText (ResultsDisplay.p_children p))
                      rendered = paragraphs).
  { unfold rendered, ResultsDisplay.formatResult, Js.mapi; fold paragraphs.
    rewrite (map_mapi_from _ _ (fun paragraph => paragraph)); [apply map_id|].
    intros j paragraph; cbv beta.
    simpl ResultsDisplay.p_children.
    rewrite fragment_lineNode, nodesText_fragments by reflexivity.
    apply join_split, newline_nonempty. }
  repeat split.
  - exact Htext.
  - unfold rendered, ResultsDisplay.formatResult, Js.mapi; fold paragraphs.
    apply (keys_mapi_from
             (fun paragraph => List.concat (Js.mapi (ResultsDisplay.fragment paragraph)
                                                    (Js.split paragraph Js.newline)))).
  - rewrite Htext; apply join_split, blank_line_nonempty.
  - apply split_pieces, blank_line_nonempty.
  - unfold rendered, ResultsDisplay.formatResult, Js.mapi; fold paragraphs.
    apply Forall_mapi_from; intros j paragraph.
    simpl ResultsDisplay.p_children; unfold Js.mapi; rewrite fragment_lineNode.
    apply lineFree_fragments, split_pieces, newline_nonempty.
  - unfold rendered, ResultsDisplay.formatResult, Js.mapi; fold paragraphs.
    apply map_mapi_from; intros j paragraph; cbv beta.
    simpl ResultsDisplay.p_children.
    rewrite fragment_lineNode; apply breaks_fragments; reflexivity.
Qed.

(** ** The file-size formatter *)
Section FormatFileSize.

Import VideoUploader.
Local Open Scope N_scope.

Lemma k_pow (i : N) : k ^ i = 2 ^ (10 * i).
Proof. rewrite N.pow_mul_r; reflexivity. Qed.

Lemma k_pow_pos (i : N) : 0 < k ^ i.
Proof. apply N.neq_0_lt_0, N.pow_nonzero; discriminate. Qed.

(** The unit index is the floor of the base-1024 logarithm. *)
Lemma unitIndex_spec (bytes : N) :
  0 < bytes -> k ^ unitIndex bytes <= bytes < k ^ (unitIndex bytes + 1).
Proof.
  intros Hpos; unfold unitIndex; rewrite !k_pow.
  destruct (N.log2_spec bytes Hpos) as [Hlo Hhi].
  pose proof (N.Div0.mul_div_le (N.log2 bytes) 10) as Hdiv.
  pose proof (N.mul_succ_div_gt (N.log2 bytes) 10 ltac:(discriminate)) as Hdiv'.
  split.
  - eapply N.le_trans; [|exact Hlo].
    apply N.pow_le_mono_r; [discriminate | exact Hdiv].
  - eapply N.lt_le_trans; [exact Hhi|].
    apply N.pow_le_mono_r; [discriminate | lia].
Qed.






Lemma fractionDigits_two_places (r : N) :
  r < 100 -> atMostTwoDecimals (fractionDigits r) = true.
Proof.
  intros Hr.
  assert (Hall : forallb (fun n => atMostTwoDecimals (fractionDigits (N.of_nat n)))
                         (seq 0 100) = true) by (vm_compute; reflexivity).
  rewrite forallb_forall in Hall.
  rewrite <- (N2Nat.id r); apply Hall, in_seq; lia.
Qed.


Lemma unitLabel_defined (bytes : N) :
  0 < bytes -> bytes < k ^ 4 ->
  exists label, unitLabel (unitIndex bytes) = Some label /\ In label sizes.
Proof.
  intros Hpos Hlt.
  pose proof (unitIndex_spec bytes Hpos) as [Hlo _].
  assert (Hi : unitIndex bytes < 4).
  { apply N.nle_gt; intros Hge.
    assert (k ^ 4 <= k ^ unitIndex bytes)
      by (apply N.pow_le_mono_r; [discriminate | exact Hge]).
    lia. }
  unfold unitLabel.
  destruct (nth_error sizes (N.to_nat (unitIndex bytes))) as [label|] eqn:E.
  - exists label; split; [reflexivity | eapply nth_error_In; exact E].
  - apply nth_error_None in E; simpl in E; lia.
Qed.

Lemma unitLabel_undefined (bytes : N) :
  k ^ 4 <= bytes -> 4 <= unitIndex bytes /\ unitLabel (unitIndex bytes) = None.
Proof.
  intros Hge.
  assert (Hi : 4 <= unitIndex bytes).
  { unfold unitIndex.
    change 4 with (N.log2 (k ^ 4) / 10).
    apply N.Div0.div_le_mono, N.log2_le_mono, Hge. }
  split; [exact Hi|].
  unfold unitLabel; apply nth_error_None; simpl; lia.
Qed.

End FormatFileSize.

(** ** Reading the printed size back *)
Section ReadBack.

Import VideoUploader.












End ReadBack.




(** C9.  The unit table has the four entries Bytes, KB, MB and GB: a
    positive size below 1024^4 gets one of them, and for every size of at
    least 1024^4 bytes the unit index is 4 or more, the table has no entry
    there, and the text ends in the placeholder ["undefined"].  (Nothing is
    said of the number in front of it: above 1024^4 the logarithm computed
    in doubles may step to the next index a few bytes early.) *)
Theorem formatFileSize_unit_defined_only_below_k4 :
  VideoUploader.sizes = ["Bytes"; "KB"; "MB"; "GB"]
  /\ (forall bytes : N,
        (0 < bytes)%N -> (bytes < VideoUploader.k ^ 4)%N ->
        exists label,
          VideoUploader.unitLabel (VideoUploader.unitIndex bytes) = Some label
          /\ In label VideoUploader.sizes)
  /\ (forall bytes : N,
        (VideoUploader.k ^ 4 <= bytes)%N ->
        (4 <= VideoUploader.unitIndex bytes)%N
        /\ VideoUploader.unitLabel (VideoUploader.unitIndex bytes) = None
        /\ exists number : string,
             VideoUploader.formatFileSize bytes = number ++ " undefined").
Proof.
  split; [reflexivity|].
  split; [exact unitLabel_defined|].
  intros bytes Hge.
  destruct (unitLabel_undefined bytes Hge) as [Hi Hnone].
  split; [exact Hi|]; split; [exact Hnone|].
  exists (VideoUploader.numberToString (VideoUploader.hundredths bytes)).
  unfold VideoUploader.formatFileSize.
  destruct (N.eqb_spec bytes 0) as [E | _].
  - subst bytes; vm_compute in Hge; congruence.
  - rewrite Hnone; reflexivity.
Qed.

Lemma formatFileSize_unit_defined_only_below_k4_witness :
  (exists label,
      VideoUploader.unitLabel (VideoUploader.unitIndex 1099511627775) = Some label
      /\ In label VideoUploader.sizes)
  /\ (4 <= VideoUploader.unitIndex 1099511627776)%N
  /\ VideoUploader.unitLabel (VideoUploader.unitIndex 1099511627776) = None
  /\ exists number : string,
       VideoUploader.formatFileSize 1099511627776 = number ++ " undefined".
Proof.
  split.
  - apply (proj1 (proj2 formatFileSize_unit_defined_only_below_k4) 1099511627775%N);
      reflexivity.
  - apply (proj2 (proj2 formatFileSize_unit_defined_only_below_k4) 1099511627776%N).
    vm_compute; discriminate.
Defined.

(** ** [App.handleAnalyze] and [analyzeVideoFile] *)

(** With the file or the analysis type missing, [handleAnalyze] issues no
    request, leaves [loading] as it was and only sets the message. *)
Lemma handleAnalyze_validation (s : App.State) :
  App.selectedFile s = None \/ App.analysisType s = "" ->
  App.handleAnalyze_begin s
  = (App.setError (Some "Please select a video file and analysis type") s, None).
Proof.
  intros [H | H]; unfold App.handleAnalyze_begin; rewrite H;
    [reflexivity | destruct (App.selectedFile s); reflexivity].
Qed.

Lemma handleAnalyze_accepts (s : App.State) (file : File) :
  App.selectedFile s = Some file -> App.analysisType s <> "" ->
  App.handleAnalyze_begin s
  = (App.setResults None (App.setError None (App.setLoading true s)),
     Some (Api.analyzeVideoFile_request file (App.analysisType s))).
Proof.
  intros Hf Ht; unfold App.handleAnalyze_begin; rewrite Hf.
  destruct (String.eqb_spec (App.analysisType s) ""); [contradiction | reflexivity].
Qed.

Lemma or_else_nonempty (d fallback : string) :
  d <> "" -> Js.or_else (Some d) fallback = d.
Proof.
  intros H; unfold Js.or_else.
  destruct (String.eqb_spec d ""); [contradiction | reflexivity].
Qed.

Lemma or_else_fallback (a : option string) (fallback : string) :
  a = None \/ a = Some "" -> Js.or_else a fallback = fallback.
Proof. intros [-> | ->]; reflexivity. Qed.

(** The message [handleAnalyze] shows when the call is rejected. *)
Lemma handleAnalyze_rejected (s : App.State) (file : File)
      (response : option Api.AxiosResponse) :
  App.selectedFile s = Some file -> App.analysisType s <> "" ->
  fst (App.handleAnalyze (Api.AxiosRejected response) s)
  = App.setLoading false
      (App.setError
         (Some (Js.or_else
                  (Some (Js.or_else (Api.errorDetail response) "Failed to analyze video"))
                  "Analysis failed. Please try again."))
         (App.setResults None (App.setError None (App.setLoading true s)))).
Proof.
  intros Hf Ht; unfold App.handleAnalyze.
  rewrite (handleAnalyze_accepts s file Hf Ht); reflexivity.
Qed.

(** The claim of C6 fails on an empty [detail]: the message is the fallback,
    not the field's value. *)
Lemma empty_detail_counterexample :
  Api.errorDetail (Some (Api.mkAxiosResponse 500
                           (Some (mkPayload false None None None None (Some "")))))
  = Some ""
  /\ App.error (fst (App.handleAnalyze (Scenario.serverError "") Scenario.ready))
     = Some "Failed to analyze video"
  /\ App.error (fst (App.handleAnalyze (Scenario.serverError "") Scenario.ready))
     <> Some "".
Proof. split; [reflexivity | split; [reflexivity | discriminate]]. Qed.

(** C6 (amended).  When the call is rejected with a response whose body
    carries a non-empty [detail], the message shown is exactly that value;
    when the [detail] is missing or empty, when the body is missing, or when
    there is no response, the message is ["Failed to analyze video"]; HTTP
    500 with [{"detail":"model unavailable"}] shows ["model unavailable"]. *)
Theorem handleAnalyze_error_message :
  (forall (s : App.State) (file : File) (status : Z) (body : Payload) (d : string),
      App.selectedFile s = Some file -> App.analysisType s <> "" ->
      detail body = Some d -> d <> "" ->
      App.error (fst (App.handleAnalyze
                        (Api.AxiosRejected (Some (Api.mkAxiosResponse status (Some body)))) s))
      = Some d)
  /\ (forall (s : App.State) (file : File) (response : option Api.AxiosResponse),
        App.selectedFile s = Some file -> App.analysisType s <> "" ->
        Api.errorDetail response = None \/ Api.errorDetail response = Some "" ->
        App.error (fst (App.handleAnalyze (Api.AxiosRejected response) s))
        = Some "Failed to analyze video")
  /\ App.error (fst (App.handleAnalyze (Scenario.serverError "model unavailable")
                                       Scenario.ready))
     = Some "model unavailable".
Proof.
  split; [|split; [|reflexivity]].
  - intros s file status body d Hf Ht Hd Hne.
    rewrite (handleAnalyze_rejected s file _ Hf Ht).
    unfold App.setLoading at 1; unfold App.setError at 1; cbn [App.error].
    unfold Api.errorDetail; cbn [Api.data].
    rewrite Hd, (or_else_nonempty d "Failed to analyze video" Hne).
    rewrite (or_else_nonempty d _ Hne); reflexivity.
  - intros s file response Hf Ht Hd.
    rewrite (handleAnalyze_rejected s file _ Hf Ht).
    unfold App.setLoading at 1; unfold App.setError at 1; cbn [App.error].
    rewrite (or_else_fallback _ _ Hd); reflexivity.
Qed.

Lemma handleAnalyze_error_message_witness :
  App.error (fst (App.handleAnalyze
                    (Api.AxiosRejected
                       (Some (Api.mkAxiosResponse 503
                                (Some (mkPayload false None None None None
                                                 (Some "quota exceeded"))))))
                    Scenario.ready))
  = Some "quota exceeded"
  /\ App.error (fst (App.handleAnalyze (Api.AxiosRejected None) Scenario.ready))
     = Some "Failed to analyze video".
Proof.
  split.
  - apply (proj1 handleAnalyze_error_message Scenario.ready Scenario.clip 503%Z
                 (mkPayload false None None None None (Some "quota exceeded"))
                 "quota exceeded");
      [reflexivity | discriminate | reflexivity | discriminate].
  - apply (proj1 (proj2 handleAnalyze_error_message) Scenario.ready Scenario.clip None);
      [reflexivity | discriminate | left; reflexivity].
Defined.


(** ** The hook [useVideoAnalysis] *)
Section Hook.

Import UseVideoAnalysis.


Lemma promptMissing_blank (customPrompt : option string) :
  blankPrompt customPrompt -> promptMissing customPrompt = true.
Proof.
  destruct customPrompt as [prompt|]; simpl; [|reflexivity].
  intros H; unfold promptMissing; simpl; rewrite H; reflexivity.
Qed.

(** Without a file [analyzeVideo] only shows a toast. *)
Lemma analyzeVideo_missing_file (analysisType : string) (customPrompt : option string)
      (s : State) :
  analyzeVideo None analysisType customPrompt s
  = toast (ToastError "Please select a video file first") s.
Proof. reflexivity. Qed.

(** Past its guards [analyzeVideo] starts the timer and issues the call. *)
Lemma analyzeVideo_accepted (file : File) (analysisType : string)
      (customPrompt : option string) (s : State) :
  accepted analysisType customPrompt ->
  analyzeVideo (Some file) analysisType customPrompt s
  = mkState true None 0%Q true (resetTimeouts s) (toasts s)
            (analyzeVideo_request file analysisType customPrompt :: fetches s)
            (AwaitFetch analysisType).
Proof. intros H; unfold analyzeVideo; rewrite H; reflexivity. Qed.

(** C1 (the hook's missing guard).  With a file present and the analysis
    type the empty string, [analyzeVideo] shows no validation message, posts
    the form with an empty [analysis_type] and moves to the in-flight state. *)
Theorem analyzeVideo_empty_type_is_sent :
  forall (file : File) (customPrompt : option string) (s : State),
    let s' := analyzeVideo (Some file) "" customPrompt s in
    fetches s'
    = mkRequest "POST" "http://localhost:8000/analyze-video"
                [("video_file", FormFile file); ("analysis_type", FormText "")]
      :: fetches s
    /\ toasts s' = toasts s
    /\ isAnalyzing s' = true
    /\ lifecycle s' = InFlight.
Proof. intros file customPrompt s; repeat split. Qed.



(** Interval ticks touch the progress value and the timer only. *)
Lemma tick_frame (r : Q) (s : State) :
  let s' := step s (Tick r) in
  isAnalyzing s' = isAnalyzing s /\ result s' = result s
  /\ toasts s' = toasts s /\ fetches s' = fetches s
  /\ control s' = control s /\ resetTimeouts s' = resetTimeouts s.
Proof.
  simpl; unfold progressTick.
  destruct (progressInterval s); [|repeat split].
  destruct (Qle_bool 90 (progress s)); repeat split.
Qed.

Lemma ticks_frame (rs : list Q) (s : State) :
  let s' := run s (map Tick rs) in
  isAnalyzing s' = isAnalyzing s /\ result s' = result s
  /\ toasts s' = toasts s /\ fetches s' = fetches s
  /\ control s' = control s /\ resetTimeouts s' = resetTimeouts s.
Proof.
  revert s; induction rs as [|r rs IH]; intros s; [repeat split|].
  destruct (IH (step s (Tick r))) as (Ha & Hr & Ht & Hf & Hc & Hn).
  destruct (tick_frame r s) as (Ha' & Hr' & Ht' & Hf' & Hc' & Hn').
  change (run s (map Tick (r :: rs))) with (run (step s (Tick r)) (map Tick rs)).
  cbv zeta; rewrite Ha, Hr, Ht, Hf, Hc, Hn; repeat split; assumption.
Qed.

Lemma run_app (s : State) (before after : list Event) :
  run s (before ++ after) = run (run s before) after.
Proof. apply fold_left_app. Qed.

(** How a transport failure ends, from any state suspended at the call. *)
Lemma transportFailure_outcome (s : State) (analysisType : string)
      (settle : list Event) :
  control s = AwaitFetch analysisType -> transportFailure settle ->
  let s' := run s settle in
  isAnalyzing s' = false
  /\ result s' = Some (syntheticResult "Network error occurred" analysisType)
  /\ toasts s'
     = ToastError "Failed to analyze video. Please check your connection." :: toasts s
  /\ fetches s' = fetches s
  /\ control s' = Done.
Proof.
  intros Hc Hsettle; destruct Hsettle; unfold run; simpl; rewrite Hc; simpl;
    repeat split.
Qed.

(** The claim of C5 names the stored error ["network error"]; the [catch]
    block stores ["Network error occurred"]. *)
Lemma stored_error_text_counterexample :
  lifecycle Scenario.rejected = Failed
  /\ result Scenario.rejected
     = Some (syntheticResult "Network error occurred" "detailed_summary")
  /\ result Scenario.rejected
     <> Some (syntheticResult "network error" "detailed_summary").
Proof. split; [reflexivity | split; [reflexivity | discriminate]]. Qed.

(** C5 (amended).  A submission that passes the guards and ends in a
    transport failure (no response, or a response whose body does not decode),
    after any number of interval ticks, ends in the state Failed with the
    stored result [{success: false, error: "Network error occurred",
    analysis_type}], the toast "Failed to analyze video. Please check your
    connection." on top, and exactly the one call issued. *)
Theorem transport_failure_stores_synthetic_result :
  forall (file : File) (analysisType : string) (customPrompt : option string)
         (s0 : State) (rs : list Q) (settle : list Event),
    accepted analysisType customPrompt ->
    transportFailure settle ->
    let s := run (analyzeVideo (Some file) analysisType customPrompt s0)
                 (map Tick rs ++ settle) in
    lifecycle s = Failed
    /\ result s = Some (mkPayload false None None (Some "Network error occurred")
                                  (Some analysisType) None)
    /\ toasts s
       = ToastError "Failed to analyze video. Please check your connection." :: toasts s0
    /\ fetches s = analyzeVideo_request file analysisType customPrompt :: fetches s0.
Proof.
  intros file analysisType customPrompt s0 rs settle Hacc Hsettle s.
  unfold s; rewrite run_app, (analyzeVideo_accepted _ _ _ _ Hacc).
  set (s1 := mkState _ _ _ _ _ _ _ _).
  destruct (ticks_frame rs s1) as (_ & _ & Ht & Hf & Hc & _).
  destruct (transportFailure_outcome _ analysisType settle Hc Hsettle)
    as (Ha' & Hr' & Ht' & Hf' & _).
  unfold lifecycle; rewrite Ha', Hr', Ht', Hf', Ht, Hf.
  repeat split.
Qed.

Lemma transport_failure_stores_synthetic_result_witness :
  lifecycle Scenario.badGateway = Failed
  /\ result Scenario.badGateway
     = Some (mkPayload false None None (Some "Network error occurred")
                       (Some "custom") None)
  /\ toasts Scenario.badGateway
     = ToastError "Failed to analyze video. Please check your connection." :: toasts init
  /\ fetches Scenario.badGateway
     = analyzeVideo_request Scenario.clip "custom" (Some "What happens?") :: fetches init.
Proof.
  apply (transport_failure_stores_synthetic_result
           Scenario.clip "custom" (Some "What happens?") init
           [(7 # 2)%Q; (9 # 1)%Q]
           [FetchResolved (mkResponse 502 Undecodable); JsonSettled]).
  - reflexivity.
  - apply (UndecodableBody 502).
Defined.

(** No event schedules the interval: once cleared it stays cleared. *)
Lemma step_timer_stays_cleared (s : State) (e : Event) :
  progressInterval s = false -> progressInterval (step s e) = false.
Proof.
  intros H; destruct e as [r | | response | |]; simpl.
  - rewrite H; exact H.
  - destruct (control s); exact H.
  - destruct (control s); reflexivity || exact H.
  - destruct (control s) as [| |analysisType response]; try exact H.
    destruct (body response) as [| |payload]; try exact H.
    unfold interpret; destruct (success payload); exact H.
  - destruct (resetTimeouts s); exact H.
Qed.

Lemma run_timer_stays_cleared (events : list Event) (s : State) :
  progressInterval s = false -> progressInterval (run s events) = false.
Proof.
  revert s; induction events as [|e events IH]; intros s H; [exact H|].
  apply (IH (step s e)), step_timer_stays_cleared, H.
Qed.

(** When the call resolves (success or remote failure alike) the interval
    is cleared for good. *)
Lemma resolved_fetch_clears_timer (s : State) (analysisType : string)
      (response : Response) (events : list Event) :
  control s = AwaitFetch analysisType ->
  progressInterval (run (step s (FetchResolved response)) events) = false.
Proof.
  intros Hc; apply run_timer_stays_cleared; simpl; rewrite Hc; reflexivity.
Qed.

(** C2 (the rejected call).  When [fetch] throws, the [catch] and [finally]
    blocks reach the state Failed and leave the interval as it was: after a
    submission that passed the guards the timer is still scheduled, and its
    next tick is delivered and moves the progress value. *)
Theorem rejected_fetch_leaves_timer_scheduled :
  (forall (s : State) (analysisType : string),
      control s = AwaitFetch analysisType ->
      let s' := step s FetchRejected in
      lifecycle s' = Failed /\ control s' = Done
      /\ progressInterval s' = progressInterval s)
  /\ (forall (file : File) (analysisType : string) (customPrompt : option string)
             (s0 : State) (r : Q),
        accepted analysisType customPrompt ->
        let s' := step (analyzeVideo (Some file) analysisType customPrompt s0)
                       FetchRejected in
        lifecycle s' = Failed
        /\ timerFires s'
        /\ step s' (Tick r) = setProgress (0 + r)%Q s'
        /\ timerFires (step s' (Tick r))).
Proof.
  split.
  - intros s analysisType Hc; simpl; rewrite Hc; repeat split.
  - intros file analysisType customPrompt s0 r Hacc.
    rewrite (analyzeVideo_accepted _ _ _ _ Hacc); repeat split.
Qed.

Lemma rejected_fetch_leaves_timer_scheduled_witness :
  (lifecycle Scenario.rejected = Failed /\ control Scenario.rejected = Done
   /\ progressInterval Scenario.rejected = true)
  /\ (lifecycle Scenario.rejected = Failed
      /\ timerFires Scenario.rejected
      /\ step Scenario.rejected (Tick (5 # 1))
         = setProgress (0 + (5 # 1))%Q Scenario.rejected
      /\ timerFires (step Scenario.rejected (Tick (5 # 1)))).
Proof.
  split.
  - apply (proj1 rejected_fetch_leaves_timer_scheduled
                 (analyzeVideo (Some Scenario.clip) "detailed_summary" None init)
                 "detailed_summary").
    reflexivity.
  - apply (proj2 rejected_fetch_leaves_timer_scheduled
                 Scenario.clip "detailed_summary" None init (5 # 1)%Q).
    reflexivity.
Defined.

(** While the timer runs the progress value stays in [0, 100). *)
Lemma tick_below_hundred (r : Q) (s : State) :
  (0 <= r /\ r < 10)%Q -> (0 <= progress s /\ progress s < 100)%Q ->
  (0 <= progress (step s (Tick r)) /\ progress (step s (Tick r)) < 100)%Q.
Proof.
  intros [Hr0 Hr10] [Hp0 Hp100]; simpl; unfold progressTick.
  destruct (progressInterval s); [|split; assumption].
  destruct (Qle_bool 90 (progress s)) eqn:E; simpl.
  - split; lra.
  - assert (~ (90 <= progress s)%Q)
      by (intros H; apply Qle_bool_iff in H; congruence).
    split; lra.
Qed.

Lemma progress_below_hundred (rs : list Q) (s : State) :
  Forall (fun r => (0 <= r /\ r < 10)%Q) rs ->
  (0 <= progress s /\ progress s < 100)%Q ->
  (0 <= progress (run s (map Tick rs)) /\ progress (run s (map Tick rs)) < 100)%Q.
Proof.
  intros Hrs; revert s; induction Hrs as [|r rs Hr _ IH]; intros s Hs; [exact Hs|].
  apply (IH (step s (Tick r))), tick_below_hundred; assumption.
Qed.

(** The progress value starts at 0, is 100 once the call has resolved and
    0 again once the reset timeout has fired. *)
Lemma progress_start_snap_reset (file : File) (analysisType : string)
      (customPrompt : option string) (s0 s : State) (response : Response) :
  accepted analysisType customPrompt ->
  progress (analyzeVideo (Some file) analysisType customPrompt s0) = 0%Q
  /\ (control s = AwaitFetch analysisType ->
      progress (step s (FetchResolved response)) = 100%Q)
  /\ (resetTimeouts s <> O -> progress (step s ResetFired) = 0%Q).
Proof.
  intros Hacc; rewrite (analyzeVideo_accepted _ _ _ _ Hacc).
  split; [reflexivity|]; split.
  - intros Hc; simpl; rewrite Hc; reflexivity.
  - intros Hn; simpl; destruct (resetTimeouts s); [congruence | reflexivity].
Qed.

(** C3 (the overshoot).  After eleven ticks with [Math.random()] at 0.875
    the request is still in flight and the progress value is 96.25, above
    90; the tick after that pulls it back to 90. *)
Theorem progress_overshoots_ninety :
  Forall validEvent Scenario.elevenTicks
  /\ lifecycle Scenario.afterElevenTicks = InFlight
  /\ (progress Scenario.afterElevenTicks == 385 # 4)%Q
  /\ (90 < progress Scenario.afterElevenTicks)%Q
  /\ progress (step Scenario.afterElevenTicks (Tick (35 # 4))) = 90%Q.
Proof.
  split.
  - unfold Scenario.elevenTicks; simpl.
    repeat constructor; unfold Qle, Qlt; simpl; lia.
  - repeat split; vm_compute; congruence.
Qed.

(** C10.  The renderer returns a view exactly when the payload has a
    [result]: without one it throws, and [copyToClipboard] hands the same
    field to the clipboard; yet a remote failure report passes through
    [setResult] unchanged, so a report without [result] is stored, the state
    is Failed, and rendering the stored value throws, as does rendering the
    value the [catch] block stores. *)
Theorem renderer_needs_result_but_failures_are_stored :
  (forall results : Payload,
      Data.result results = None ->
      exists message, ResultsDisplay.render results = Thrown message)
  /\ (forall (results : Payload) (text : string),
        Data.result results = Some text ->
        ResultsDisplay.render results
        = Returned (ResultsDisplay.mkView (analysis_description results)
                                          (ResultsDisplay.formatResult text)))
  /\ (forall results : Payload,
        ResultsDisplay.copyToClipboard results = Data.result results)
  /\ (forall (file : File) (analysisType : string) (customPrompt : option string)
             (s0 : State) (status : Z) (payload : Payload),
        accepted analysisType customPrompt ->
        success payload = false ->
        Data.result payload = None ->
        let s := run (analyzeVideo (Some file) analysisType customPrompt s0)
                     [FetchResolved (mkResponse status (JsonObject payload));
                      JsonSettled] in
        result s = Some payload
        /\ lifecycle s = Failed
        /\ exists message, ResultsDisplay.render payload = Thrown message)
  /\ (forall analysisType : string,
        exists message,
          ResultsDisplay.render (syntheticResult "Network error occurred" analysisType)
          = Thrown message).
Proof.
  assert (Hthrow : forall results : Payload,
             Data.result results = None ->
             exists message, ResultsDisplay.render results = Thrown message).
  { intros results H; unfold ResultsDisplay.render; rewrite H; eexists; reflexivity. }
  split; [exact Hthrow|].
  split; [intros results text H; unfold ResultsDisplay.render; rewrite H; reflexivity|].
  split; [reflexivity|].
  split; [|intros analysisType; apply Hthrow; reflexivity].
  intros file analysisType customPrompt s0 status payload Hacc Hs Hr.
  rewrite (analyzeVideo_accepted _ _ _ _ Hacc).
  unfold run; simpl; unfold interpret, lifecycle; rewrite Hs; simpl; rewrite Hs.
  repeat split; apply Hthrow, Hr.
Qed.

Lemma renderer_needs_result_but_failures_are_stored_witness :
  (exists message, ResultsDisplay.render Scenario.failureReport = Thrown message)
  /\ ResultsDisplay.render
       (mkPayload true (Some ResultsDisplay.scenarioB_text) (Some "Technical")
                  None None None)
     = Returned (ResultsDisplay.mkView
                   (Some "Technical")
                   (ResultsDisplay.formatResult ResultsDisplay.scenarioB_text))
  /\ (result Scenario.reportedFailure = Some Scenario.failureReport
      /\ lifecycle Scenario.reportedFailure = Failed
      /\ exists message, ResultsDisplay.render Scenario.failureReport = Thrown message).
Proof.
  split; [|split].
  - apply (proj1 renderer_needs_result_but_failures_are_stored Scenario.failureReport).
    reflexivity.
  - apply (proj1 (proj2 renderer_needs_result_but_failures_are_stored)
                 (mkPayload true (Some ResultsDisplay.scenarioB_text) (Some "Technical")
                            None None None)
                 ResultsDisplay.scenarioB_text).
    reflexivity.
  - apply (proj1 (proj2 (proj2 (proj2 renderer_needs_result_but_failures_are_stored)))
                 Scenario.clip "detailed_summary" None init 200%Z Scenario.failureReport);
      reflexivity.
Defined.

End Hook.

(** ** The page: buttons, panels and handlers of [App.jsx] *)
Section Page.

Import AppHandlers.

Lemma analyzeDisabled_false (s : App.State) :
  analyzeDisabled s = false ->
  exists file,
    App.selectedFile s = Some file /\ App.analysisType s <> ""
    /\ App.loading s = false.
Proof.
  unfold analyzeDisabled; destruct (App.selectedFile s) as [file|]; [|discriminate].
  intros H; apply orb_false_iff in H as [Ht Hl].
  exists file; repeat split; [|exact Hl].
  intros E; rewrite E in Ht; discriminate.
Qed.

Lemma deliver_keeps_invariants (u : Session) (e : UserEvent) :
  settled_or_loading u /\ well_formed_calls u ->
  settled_or_loading (deliver u e) /\ well_formed_calls (deliver u e).
Proof.
  unfold settled_or_loading, well_formed_calls; intros [Hn Hs].
  destruct e as [| |acceptedFiles| |key|outcome]; simpl.
  - destruct (analyzeDisabled (page u)) eqn:E; [split; assumption|].
    destruct (analyzeDisabled_false _ E) as (file & Hf & Ht & Hl).
    rewrite (handleAnalyze_accepts _ file Hf Ht); simpl.
    rewrite Hl in Hn; rewrite Hn; split; [reflexivity|].
    constructor; [|exact Hs].
    exists file, (App.analysisType (page u)); split; [reflexivity | exact Ht].
  - unfold resetDisabled; destruct (App.loading (page u)) eqn:E; simpl;
      rewrite ?E; split; assumption.
  - destruct (App.selectedFile (page u)); [split; assumption|]; simpl.
    unfold onDrop; destruct (0 <? List.length acceptedFiles)%nat; simpl;
      split; assumption.
  - destruct (App.selectedFile (page u)); simpl; split; assumption.
  - split; assumption.
  - destruct (outstanding u) as [|n] eqn:E; [split; [congruence | assumption]|]; simpl.
    destruct (App.loading (page u)); [|discriminate].
    split; [congruence | exact Hs].
Qed.

Lemma session_invariants (events : list UserEvent) :
  settled_or_loading (session events) /\ well_formed_calls (session events).
Proof.
  unfold session.
  assert (H : settled_or_loading start /\ well_formed_calls start)
    by (split; [reflexivity | constructor]).
  revert H; generalize start; induction events as [|e events IH]; intros u H;
    [exact H|].
  apply IH, deliver_keeps_invariants, H.
Qed.

(** X1.  Whatever the user does and however calls settle, at most one call
    is awaited at a time, [loading] is set exactly while one is, and every
    call issued carries a file and a non-empty analysis type. *)
Theorem page_serialises_calls :
  forall events : list UserEvent,
    (outstanding (session events) <= 1)%nat
    /\ outstanding (session events)
       = (if App.loading (page (session events)) then 1%nat else 0%nat)
    /\ Forall (fun request =>
                 exists file type,
                   request = Api.analyzeVideoFile_request file type /\ type <> "")
              (sent (session events)).
Proof.
  intros events; destruct (session_invariants events) as [Hn Hs].
  unfold settled_or_loading in Hn.
  split; [|split; assumption].
  rewrite Hn; destruct (App.loading (page (session events))); auto.
Qed.

(** X2.  The Analyze button and the guard of [handleAnalyze] agree: when the
    button is enabled the handler issues the call for the selected file and
    type, sets [loading] and clears the message and the results; when it is
    disabled on an idle page the handler would only set the validation
    message. *)
Theorem analyze_button_matches_guard :
  (forall s : App.State,
      analyzeDisabled s = false ->
      exists file,
        App.selectedFile s = Some file
        /\ App.handleAnalyze_begin s
           = (App.mkState (Some file) (App.analysisType s) None true None,
              Some (Api.analyzeVideoFile_request file (App.analysisType s))))
  /\ (forall s : App.State,
        App.loading s = false -> analyzeDisabled s = true ->
        App.handleAnalyze_begin s
        = (App.mkState (App.selectedFile s) (App.analysisType s) (App.results s) false
                       (Some "Please select a video file and analysis type"),
           None)).
Proof.
  split; intros s.
  - intros H; destruct (analyzeDisabled_false s H) as (file & Hf & Ht & Hl).
    exists file; split; [exact Hf|].
    rewrite (handleAnalyze_accepts s file Hf Ht).
    unfold App.setResults, App.setError, App.setLoading; simpl; rewrite Hf; reflexivity.
  - intros Hl Hd; rewrite handleAnalyze_validation.
    + unfold App.setError; rewrite Hl; reflexivity.
    + unfold analyzeDisabled in Hd; rewrite Hl, orb_false_r in Hd.
      destruct (App.selectedFile s); [right; apply String.eqb_eq, Hd | left; reflexivity].
Qed.

Lemma analyze_button_matches_guard_witness :
  (exists file,
      App.selectedFile Scenario.ready = Some file
      /\ App.handleAnalyze_begin Scenario.ready
         = (App.mkState (Some file) (App.analysisType Scenario.ready) None true None,
            Some (Api.analyzeVideoFile_request file (App.analysisType Scenario.ready))))
  /\ App.handleAnalyze_begin initial
     = (App.mkState (App.selectedFile initial) (App.analysisType initial)
                    (App.results initial) false
                    (Some "Please select a video file and analysis type"),
        None).
Proof.
  split.
  - apply (proj1 analyze_button_matches_guard Scenario.ready); reflexivity.
  - apply (proj2 analyze_button_matches_guard initial); reflexivity.
Defined.

(** X3.  The results column always shows exactly one panel: the spinner
    while loading, otherwise the results when there are some, otherwise the
    placeholder. *)
Theorem right_column_shows_one_panel :
  forall s : App.State,
    rightColumn s
    = [if App.loading s then Spinner
       else match App.results s with
            | Some r => ResultsPanel r
            | None => Placeholder
            end].
Proof.
  intros s; unfold rightColumn.
  destruct (App.loading s), (App.results s) as [r|]; reflexivity.
Qed.

Lemma thrown_message_nonempty (response : option Api.AxiosResponse) (fallback : string) :
  fallback <> "" -> Js.or_else (Api.errorDetail response) fallback <> "".
Proof.
  intros Hf; unfold Js.or_else.
  destruct (Api.errorDetail response) as [d|]; [|exact Hf].
  destruct (String.eqb_spec d ""); assumption.
Qed.

(** X4.  A run of [handleAnalyze] that passes the guard issues exactly one
    call and ends with [loading] off; when the call resolves with a JSON
    object as its body, that object is the results and there is no message;
    when it is rejected, there are no results and the message is not empty
    and shown by the banner. *)
Theorem handleAnalyze_ends_with_results_or_message :
  forall (s : App.State) (file : File) (outcome : Api.AxiosOutcome),
    App.selectedFile s = Some file -> App.analysisType s <> "" ->
    let s' := fst (App.handleAnalyze outcome s) in
    snd (App.handleAnalyze outcome s)
    = [Api.analyzeVideoFile_request file (App.analysisType s)]
    /\ App.loading s' = false
    /\ App.selectedFile s' = Some file
    /\ App.analysisType s' = App.analysisType s
    /\ match outcome with
       | Api.AxiosResolved responseData =>
           App.results s' = Some responseData /\ App.error s' = None
           /\ errorBanner s' = None
       | Api.AxiosRejected response =>
           App.results s' = None
           /\ exists message,
               App.error s' = Some message /\ message <> ""
               /\ errorBanner s' = Some message
       end.
Proof.
  intros s file outcome Hf Ht s'; unfold s'.
  destruct outcome as [responseData | response].
  - unfold App.handleAnalyze; rewrite (handleAnalyze_accepts s file Hf Ht).
    simpl; repeat split; auto.
  - rewrite (handleAnalyze_rejected s file response Hf Ht).
    set (m := Js.or_else (Api.errorDetail response) "Failed to analyze video").
    assert (Hm : m <> "") by (apply thrown_message_nonempty; discriminate).
    rewrite (or_else_nonempty m _ Hm).
    unfold App.handleAnalyze; rewrite (handleAnalyze_accepts s file Hf Ht).
    simpl; repeat split; auto.
    exists m; unfold errorBanner; simpl.
    destruct (String.eqb_spec m ""); [contradiction|].
    repeat split; assumption.
Qed.

Lemma handleAnalyze_ends_with_results_or_message_witness :
  snd (App.handleAnalyze (Scenario.serverError "model unavailable") Scenario.ready)
  = [Api.analyzeVideoFile_request Scenario.clip "technical_analysis"]
  /\ App.loading (fst (App.handleAnalyze (Scenario.serverError "model unavailable")
                                         Scenario.ready)) = false
  /\ App.selectedFile (fst (App.handleAnalyze (Scenario.serverError "model unavailable")
                                              Scenario.ready)) = Some Scenario.clip
  /\ App.analysisType (fst (App.handleAnalyze (Scenario.serverError "model unavailable")
                                              Scenario.ready)) = "technical_analysis"
  /\ (App.results (fst (App.handleAnalyze (Scenario.serverError "model unavailable")
                                          Scenario.ready)) = None
      /\ exists message,
          App.error (fst (App.handleAnalyze (Scenario.serverError "model unavailable")
                                            Scenario.ready)) = Some message
          /\ message <> ""
          /\ errorBanner (fst (App.handleAnalyze (Scenario.serverError "model unavailable")
                                                 Scenario.ready)) = Some message).
Proof.
  apply (handleAnalyze_ends_with_results_or_message
           Scenario.ready Scenario.clip (Scenario.serverError "model unavailable"));
    [reflexivity | discriminate].
Defined.

(** X5.  The file can be removed while a call is awaited, and the answer is
    stored all the same: after Analyze, Remove and a call resolved with a
    body that carries a [result] text, the page has no file, shows the drop
    zone, and shows the results of the removed file, which the results
    component renders. *)
Theorem late_results_survive_file_removal :
  forall (u : Session) (responseData : Payload) (text : string),
    analyzeDisabled (page u) = false -> outstanding u = 0%nat ->
    Data.result responseData = Some text ->
    let u' := fold_left deliver
                        [ClickAnalyze; Remove; Settle (Api.AxiosResolved responseData)] u in
    App.selectedFile (page u') = None
    /\ UploaderView.render (App.selectedFile (page u')) = UploaderView.Dropzone
    /\ App.results (page u') = Some responseData
    /\ rightColumn (page u') = [ResultsPanel responseData]
    /\ ResultsDisplay.render responseData
       = Returned (ResultsDisplay.mkView (analysis_description responseData)
                                         (ResultsDisplay.formatResult text))
    /\ analyzeDisabled (page u') = true.
Proof.
  intros u responseData text Hd Hn Hr u'; unfold u'; simpl.
  rewrite Hd.
  destruct (analyzeDisabled_false _ Hd) as (file & Hf & Ht & Hl).
  rewrite (handleAnalyze_accepts _ file Hf Ht); simpl.
  rewrite Hf; simpl. unfold ResultsDisplay.render; rewrite Hr. repeat split.
Qed.

Lemma late_results_survive_file_removal_witness :
  App.selectedFile
    (page (fold_left deliver
                     [ClickAnalyze; Remove; Settle (Api.AxiosResolved SampleRuns.successReport)]
                     (mkSession Scenario.ready 0 []))) = None
  /\ UploaderView.render
       (App.selectedFile
          (page (fold_left deliver
                           [ClickAnalyze; Remove;
                            Settle (Api.AxiosResolved SampleRuns.successReport)]
                           (mkSession Scenario.ready 0 [])))) = UploaderView.Dropzone
  /\ App.results
       (page (fold_left deliver
                        [ClickAnalyze; Remove;
                         Settle (Api.AxiosResolved SampleRuns.successReport)]
                        (mkSession Scenario.ready 0 []))) = Some SampleRuns.successReport
  /\ rightColumn
       (page (fold_left deliver
                        [ClickAnalyze; Remove;
                         Settle (Api.AxiosResolved SampleRuns.successReport)]
                        (mkSession Scenario.ready 0 [])))
     = [ResultsPanel SampleRuns.successReport]
  /\ ResultsDisplay.render SampleRuns.successReport
     = Returned (ResultsDisplay.mkView
                   (analysis_description SampleRuns.successReport)
                   (ResultsDisplay.formatResult ResultsDisplay.scenarioB_text))
  /\ analyzeDisabled
       (page (fold_left deliver
                        [ClickAnalyze; Remove;
                         Settle (Api.AxiosResolved SampleRuns.successReport)]
                        (mkSession Scenario.ready 0 []))) = true.
Proof.
  apply (late_results_survive_file_removal
           (mkSession Scenario.ready 0 []) SampleRuns.successReport
           ResultsDisplay.scenarioB_text); reflexivity.
Defined.

(** X6.  Dropping files selects the first one only and clears results and
    message; the card shows its name and formatted size; removing it then
    gives the state that clearing the selection directly gives, with the
    drop zone back and the other cells untouched; dropping nothing changes
    nothing. *)
Theorem drop_then_remove_clears_selection :
  forall (s : App.State) (file : File) (others : list File),
    let dropped := onDrop handleFileSelect (file :: others) s in
    dropped = App.mkState (Some file) (App.analysisType s) None (App.loading s) None
    /\ UploaderView.render (App.selectedFile dropped)
       = UploaderView.FileCard (file_name file)
                               (VideoUploader.formatFileSize (file_size file))
    /\ removeFile handleFileSelect dropped
       = App.mkState None (App.analysisType s) None (App.loading s) None
    /\ UploaderView.render (App.selectedFile (removeFile handleFileSelect dropped))
       = UploaderView.Dropzone
    /\ onDrop handleFileSelect [] s = s.
Proof. intros s file others; repeat split. Qed.

(** X7.  [handleReset] leaves [loading] alone and empties the other four
    cells, so resetting twice is resetting once, the Analyze button is
    disabled afterwards, and on a page that is not loading (the only place
    where the Reset button is enabled) it gives back the start state. *)
Theorem handleReset_returns_to_start :
  (forall s : App.State,
      handleReset s = App.mkState None "" None (App.loading s) None
      /\ handleReset (handleReset s) = handleReset s
      /\ analyzeDisabled (handleReset s) = true)
  /\ (forall s : App.State,
        resetDisabled s = false ->
        handleReset s = initial /\ rightColumn (handleReset s) = [Placeholder]).
Proof.
  split; intros s; [repeat split|].
  unfold resetDisabled; intros Hl.
  unfold handleReset, rightColumn, App.setError, App.setResults, setAnalysisType,
    setSelectedFile; simpl; rewrite Hl; split; reflexivity.
Qed.

Lemma handleReset_returns_to_start_witness :
  handleReset (fst (App.handleAnalyze (Scenario.serverError "model unavailable")
                                      Scenario.ready)) = initial
  /\ rightColumn
       (handleReset (fst (App.handleAnalyze (Scenario.serverError "model unavailable")
                                            Scenario.ready))) = [Placeholder].
Proof.
  apply (proj2 handleReset_returns_to_start
               (fst (App.handleAnalyze (Scenario.serverError "model unavailable")
                                       Scenario.ready))).
  reflexivity.
Defined.

(** X8.  When the catalogue request is rejected, [fetchAnalysisOptions]
    shows the fixed message "Failed to fetch analysis options", whatever
    [detail] the response carries, and keeps the options it had; when it
    resolves, the options become the reply's [analysis_options] and the
    other cells (a message shown earlier included) stay; a reply without
    that field makes the options component throw. *)
Theorem fetchAnalysisOptions_outcomes :
  forall (p : Page),
    (forall response : option Api.AxiosResponse,
        fetchAnalysisOptions (Services.Rejected response) p
        = mkPage (App.mkState (App.selectedFile (cells p)) (App.analysisType (cells p))
                              (App.results (cells p)) (App.loading (cells p))
                              (Some "Failed to fetch analysis options"))
                 (analysisOptions p))
    /\ (forall reply : Services.OptionsReply,
          fetchAnalysisOptions (Services.Resolved reply) p
          = mkPage (cells p) (Services.analysis_options reply))
    /\ (forall selectedType : string,
          exists message,
            AnalysisOptions.component
              (analysisOptions
                 (fetchAnalysisOptions (Services.Resolved (Services.mkOptionsReply None)) p))
              selectedType
            = Thrown message).
Proof.
  intros p; repeat split.
  intros selectedType; eexists; reflexivity.
Qed.


End Page.

(** ** The options list and the copy button *)
Section Widgets.

Lemma checked_keys_unlisted (options : list (string * Services.OptionInfo))
      (selectedType : string) :
  existsb (String.eqb selectedType) (map fst options) = false ->
  filter AnalysisOptions.entry_checked (AnalysisOptions.render options selectedType) = [].
Proof.
  induction options as [|[key info] options IH]; intros H; [reflexivity|].
  simpl in *; apply orb_false_iff in H as [Hk Hrest].
  rewrite Hk; apply IH, Hrest.
Qed.

Lemma existsb_not_in (key : string) (keys : list string) :
  ~ In key keys -> existsb (String.eqb key) keys = false.
Proof.
  induction keys as [|k keys IH]; intros H; [reflexivity|]; simpl.
  destruct (String.eqb_spec key k) as [E | _]; [exfalso; apply H; left; congruence|].
  apply IH; intros Hin; apply H; right; exact Hin.
Qed.

Lemma checked_keys (options : list (string * Services.OptionInfo))
      (selectedType : string) :
  NoDup (map fst options) ->
  map AnalysisOptions.entry_key
      (filter AnalysisOptions.entry_checked (AnalysisOptions.render options selectedType))
  = if existsb (String.eqb selectedType) (map fst options) then [selectedType] else [].
Proof.
  induction options as [|[key info] options IH]; intros Hnd; [reflexivity|].
  simpl in Hnd; inversion Hnd as [|? ? Hfresh Hrest]; subst.
  simpl; destruct (String.eqb_spec selectedType key) as [E | NE]; simpl.
  - subst key; rewrite checked_keys_unlisted by (apply existsb_not_in, Hfresh).
    reflexivity.
  - apply IH, Hrest.
Qed.

(** X10.  The options component renders one entry per option, in order and
    under the option's key and description; the keys being distinct, the
    checked radios are exactly the entry of the selected type when it is
    among the keys, and none otherwise. *)
Theorem options_check_the_selected_entry :
  forall (options : list (string * Services.OptionInfo)) (selectedType : string),
    NoDup (map fst options) ->
    map AnalysisOptions.entry_key (AnalysisOptions.render options selectedType)
    = map fst options
    /\ map AnalysisOptions.entry_description (AnalysisOptions.render options selectedType)
       = map (fun entry => Services.description (snd entry)) options
    /\ map AnalysisOptions.entry_key
           (filter AnalysisOptions.entry_checked
                   (AnalysisOptions.render options selectedType))
       = (if existsb (String.eqb selectedType) (map fst options)
          then [selectedType] else [])
    /\ AnalysisOptions.checkedCount (AnalysisOptions.render options selectedType)
       = (if existsb (String.eqb selectedType) (map fst options) then 1%nat else 0%nat).
Proof.
  intros options selectedType Hnd.
  split; [unfold AnalysisOptions.render; rewrite map_map; reflexivity|].
  split; [unfold AnalysisOptions.render; rewrite map_map; reflexivity|].
  split; [apply checked_keys, Hnd|].
  unfold AnalysisOptions.checkedCount.
  rewrite <- (length_map AnalysisOptions.entry_key), (checked_keys _ _ Hnd).
  destruct (existsb (String.eqb selectedType) (map fst options)); reflexivity.
Qed.

Lemma options_check_the_selected_entry_witness :
  map AnalysisOptions.entry_key
      (AnalysisOptions.render SampleOptions.scenarioA "quiz_generation")
  = ["detailed_summary"; "quiz_generation"]
  /\ map AnalysisOptions.entry_description
         (AnalysisOptions.render SampleOptions.scenarioA "quiz_generation")
     = [Some "A detailed summary"; Some "A quiz"]
  /\ map AnalysisOptions.entry_key
         (filter AnalysisOptions.entry_checked
                 (AnalysisOptions.render SampleOptions.scenarioA "quiz_generation"))
     = ["quiz_generation"]
  /\ AnalysisOptions.checkedCount
       (AnalysisOptions.render SampleOptions.scenarioA "quiz_generation") = 1%nat.
Proof.
  apply (options_check_the_selected_entry SampleOptions.scenarioA "quiz_generation").
  repeat constructor; simpl; intuition discriminate.
Defined.

Lemma copy_step_keeps_pending (s : CopyButton.State) (e : CopyButton.Event) :
  (CopyButton.copied s = true -> (0 < CopyButton.timeouts s)%nat) ->
  CopyButton.copied (CopyButton.step s e) = true ->
  (0 < CopyButton.timeouts (CopyButton.step s e))%nat.
Proof.
  intros H; destruct e as [results [|]|]; simpl; [lia | exact H|].
  destruct (CopyButton.timeouts s) eqn:E; [rewrite E; exact H | simpl; discriminate].
Qed.

Lemma copy_run_keeps_pending (events : list CopyButton.Event) (s : CopyButton.State) :
  (CopyButton.copied s = true -> (0 < CopyButton.timeouts s)%nat) ->
  CopyButton.copied (CopyButton.run s events) = true ->
  (0 < CopyButton.timeouts (CopyButton.run s events))%nat.
Proof.
  revert s; induction events as [|e events IH]; intros s H; [exact H|].
  apply (IH (CopyButton.step s e)), copy_step_keeps_pending, H.
Qed.

Lemma copy_failures_never_confirm (events : list CopyButton.Event) (s : CopyButton.State) :
  Forall (fun e => match e with CopyButton.Copy _ ok => ok = false | _ => True end) events ->
  CopyButton.copied s = false ->
  CopyButton.copied (CopyButton.run s events) = false.
Proof.
  intros Hall; revert s; induction Hall as [|e events He _ IH]; intros s Hs; [exact Hs|].
  apply (IH (CopyButton.step s e)).
  destruct e as [results ok|]; simpl; [subst ok; exact Hs|].
  destruct (CopyButton.timeouts s); [exact Hs | reflexivity].
Qed.

(** X12.  Whatever sequence of clicks and timeouts the copy button sees, the
    label "Copied!" is shown only while a timeout that will revert it is
    pending: with no timeout pending the label is "Copy". *)
Theorem copied_label_always_reverts :
  forall events : list CopyButton.Event,
    CopyButton.timeouts (CopyButton.run CopyButton.init events) = 0%nat ->
    CopyButton.label (CopyButton.run CopyButton.init events) = "Copy".
Proof.
  intros events Hn; unfold CopyButton.label.
  destruct (CopyButton.copied (CopyButton.run CopyButton.init events)) eqn:E;
    [|reflexivity].
  apply copy_run_keeps_pending in E; [lia | discriminate].
Qed.

Lemma copied_label_always_reverts_witness :
  CopyButton.label
    (CopyButton.run CopyButton.init
                    [CopyButton.Copy Scenario.failureReport true;
                     CopyButton.Copy Scenario.failureReport true;
                     CopyButton.TimeoutFired; CopyButton.TimeoutFired])
  = "Copy".
Proof.
  apply (copied_label_always_reverts
           [CopyButton.Copy Scenario.failureReport true;
            CopyButton.Copy Scenario.failureReport true;
            CopyButton.TimeoutFired; CopyButton.TimeoutFired]).
  reflexivity.
Defined.




End Widgets.

(** ** The hook: what follows a submission *)
Section HookRuns.

Import UseVideoAnalysis.

Lemma step_keeps_fetches (s : State) (e : Event) : fetches (step s e) = fetches s.
Proof.
  destruct e as [r | | response | |]; simpl.
  - unfold progressTick; destruct (progressInterval s); [|reflexivity].
    destruct (Qle_bool 90 (progress s)); reflexivity.
  - destruct (control s); reflexivity.
  - destruct (control s); reflexivity.
  - destruct (control s) as [| |analysisType response]; try reflexivity.
    destruct (body response) as [| |payload]; try reflexivity.
    unfold interpret; destruct (success payload); reflexivity.
  - destruct (resetTimeouts s); reflexivity.
Qed.

Lemma run_keeps_fetches (events : list Event) (s : State) :
  fetches (run s events) = fetches s.
Proof.
  revert s; induction events as [|e events IH]; intros s; [reflexivity|].
  change (run s (e :: events)) with (run (step s e) events).
  rewrite IH; apply step_keeps_fetches.
Qed.

Lemma idle_ticks_change_nothing (rs : list Q) (s : State) :
  progressInterval s = false -> run s (map Tick rs) = s.
Proof.
  intros H; induction rs as [|r rs IH]; [reflexivity|].
  change (run s (map Tick (r :: rs))) with (run (step s (Tick r)) (map Tick rs)).
  simpl step; rewrite H; exact IH.
Qed.

(** X15.  For a submission made where no interval of an earlier one is
    still scheduled: once the call has resolved, whatever the response, the
    interval is cleared for good; after any further events it is not
    scheduled, and ticks no longer change the state. *)
Theorem resolved_call_stops_the_timer :
  forall (file : File) (analysisType : string) (customPrompt : option string)
         (s0 : State) (rs : list Q) (response : Response) (events : list Event),
    progressInterval s0 = false ->
    accepted analysisType customPrompt ->
    let s := run (analyzeVideo (Some file) analysisType customPrompt s0)
                 (map Tick rs ++ FetchResolved response :: events) in
    progressInterval s = false
    /\ forall later : list Q, run s (map Tick later) = s.
Proof.
  intros file analysisType customPrompt s0 rs response events _ Hacc s.
  assert (Hs : progressInterval s = false).
  { unfold s; rewrite run_app, (analyzeVideo_accepted _ _ _ _ Hacc).
    set (s1 := mkState _ _ _ _ _ _ _ _).
    destruct (ticks_frame rs s1) as (_ & _ & _ & _ & Hc & _).
    change (run (run s1 (map Tick rs)) (FetchResolved response :: events))
      with (run (step (run s1 (map Tick rs)) (FetchResolved response)) events).
    apply (resolved_fetch_clears_timer _ analysisType), Hc. }
  split; [exact Hs | intros later; apply idle_ticks_change_nothing, Hs].
Qed.

Lemma resolved_call_stops_the_timer_witness :
  progressInterval Scenario.reportedFailure = false
  /\ forall later : list Q,
      run Scenario.reportedFailure (map Tick later) = Scenario.reportedFailure.
Proof.
  apply (resolved_call_stops_the_timer
           Scenario.clip "detailed_summary" None init []
           (mkResponse 200 (JsonObject Scenario.failureReport)) [JsonSettled]);
    reflexivity.
Defined.

(** X16.  While the call is pending, ticks whose increments lie in [0, 10)
    keep the progress value in [0, 100) and the request in flight. *)
Theorem progress_stays_below_hundred_in_flight :
  forall (file : File) (analysisType : string) (customPrompt : option string)
         (s0 : State) (rs : list Q),
    accepted analysisType customPrompt ->
    Forall (fun r => (0 <= r /\ r < 10)%Q) rs ->
    let s := run (analyzeVideo (Some file) analysisType customPrompt s0) (map Tick rs) in
    (0 <= progress s /\ progress s < 100)%Q
    /\ lifecycle s = InFlight
    /\ control s = AwaitFetch analysisType.
Proof.
  intros file analysisType customPrompt s0 rs Hacc Hrs s; unfold s.
  rewrite (analyzeVideo_accepted _ _ _ _ Hacc).
  set (s1 := mkState _ _ _ _ _ _ _ _).
  destruct (ticks_frame rs s1) as (Ha & _ & _ & _ & Hc & _).
  split; [|split; [unfold lifecycle; rewrite Ha; reflexivity | exact Hc]].
  apply progress_below_hundred; [exact Hrs|].
  simpl; split; lra.
Qed.

Lemma progress_stays_below_hundred_in_flight_witness :
  (0 <= progress (run (analyzeVideo (Some Scenario.clip) "detailed_summary" None init)
                      (map Tick [(35 # 4)%Q; (1 # 2)%Q]))
   /\ progress (run (analyzeVideo (Some Scenario.clip) "detailed_summary" None init)
                    (map Tick [(35 # 4)%Q; (1 # 2)%Q])) < 100)%Q
  /\ lifecycle (run (analyzeVideo (Some Scenario.clip) "detailed_summary" None init)
                    (map Tick [(35 # 4)%Q; (1 # 2)%Q])) = InFlight
  /\ control (run (analyzeVideo (Some Scenario.clip) "detailed_summary" None init)
                  (map Tick [(35 # 4)%Q; (1 # 2)%Q])) = AwaitFetch "detailed_summary".
Proof.
  apply (progress_stays_below_hundred_in_flight
           Scenario.clip "detailed_summary" None init [(35 # 4)%Q; (1 # 2)%Q]).
  - reflexivity.
  - repeat constructor; unfold Qle, Qlt; simpl; lia.
Defined.

(** X17.  No event issues a call: a submission that passes the guards has
    issued exactly one call however it goes on (no retry), and one that a
    guard stops never issues any. *)
Theorem one_call_per_submission :
  (forall (file : File) (analysisType : string) (customPrompt : option string)
          (s0 : State) (events : list Event),
      accepted analysisType customPrompt ->
      fetches (run (analyzeVideo (Some file) analysisType customPrompt s0) events)
      = analyzeVideo_request file analysisType customPrompt :: fetches s0)
  /\ (forall (file : option File) (analysisType : string) (customPrompt : option string)
            (s0 : State) (events : list Event),
        file = None \/ (analysisType = "custom" /\ blankPrompt customPrompt) ->
        fetches (run (analyzeVideo file analysisType customPrompt s0) events)
        = fetches s0).
Proof.
  split.
  - intros file analysisType customPrompt s0 events Hacc.
    rewrite run_keeps_fetches, (analyzeVideo_accepted _ _ _ _ Hacc); reflexivity.
  - intros file analysisType customPrompt s0 events H; rewrite run_keeps_fetches.
    destruct H as [-> | [-> Hblank]]; [reflexivity|].
    destruct file as [file|]; [|reflexivity].
    unfold analyzeVideo; rewrite (promptMissing_blank _ Hblank); reflexivity.
Qed.

Lemma one_call_per_submission_witness :
  fetches (run (analyzeVideo (Some Scenario.clip) "detailed_summary" None init)
               [Tick (5 # 1); FetchRejected; Tick (5 # 1); ResetFired; JsonSettled])
  = [analyzeVideo_request Scenario.clip "detailed_summary" None]
  /\ fetches (run (analyzeVideo None "detailed_summary" None init)
                  [Tick (5 # 1); FetchRejected; ResetFired])
     = [].
Proof.
  split.
  - apply (proj1 one_call_per_submission Scenario.clip "detailed_summary" None init
                 [Tick (5 # 1); FetchRejected; Tick (5 # 1); ResetFired; JsonSettled]).
    reflexivity.
  - apply (proj2 one_call_per_submission None "detailed_summary" None init
                 [Tick (5 # 1); FetchRejected; ResetFired]).
    left; reflexivity.
Defined.

(** X18.  The hook never looks at the HTTP status: two responses with the
    same body end in the same state, so a 500 whose body reports success is
    a success. *)
Theorem status_code_is_ignored :
  forall (s : State) (status status' : Z) (responseBody : ResponseBody),
    run s [FetchResolved (mkResponse status responseBody); JsonSettled]
    = run s [FetchResolved (mkResponse status' responseBody); JsonSettled].
Proof.
  intros s status status' responseBody; unfold run; simpl.
  destruct (control s) as [|analysisType|analysisType response] eqn:E;
    simpl; rewrite ?E; try reflexivity.
  destruct responseBody as [| |payload]; try reflexivity.
  unfold interpret; destruct (success payload); reflexivity.
Qed.

(** X19.  A submission made where no interval of an earlier one is still
    scheduled, and answered by a payload reporting success, ends, after any
    ticks, in the state Succeeded with the payload stored as it came,
    the progress value at 100, the success toast on top, the interval
    cleared and one reset timeout scheduled; when that fires the progress
    value is 0 and the result is still there. *)
Theorem success_path :
  forall (file : File) (analysisType : string) (customPrompt : option string)
         (s0 : State) (rs : list Q) (status : Z) (payload : Payload),
    progressInterval s0 = false ->
    accepted analysisType customPrompt ->
    success payload = true ->
    let s := run (analyzeVideo (Some file) analysisType customPrompt s0)
                 (map Tick rs
                      ++ [FetchResolved (mkResponse status (JsonObject payload));
                          JsonSettled]) in
    lifecycle s = Succeeded
    /\ result s = Some payload
    /\ progress s = 100%Q
    /\ toasts s = ToastSuccess "Video analysis completed!" :: toasts s0
    /\ progressInterval s = false
    /\ resetTimeouts s = S (resetTimeouts s0)
    /\ progress (step s ResetFired) = 0%Q
    /\ result (step s ResetFired) = Some payload
    /\ lifecycle (step s ResetFired) = Succeeded.
Proof.
  intros file analysisType customPrompt s0 rs status payload _ Hacc Hok s.
  unfold s; rewrite run_app, (analyzeVideo_accepted _ _ _ _ Hacc).
  set (s1 := mkState _ _ _ _ _ _ _ _).
  destruct (ticks_frame rs s1) as (_ & _ & Ht & _ & Hc & Hn).
  unfold run at 1; simpl; rewrite Hc; simpl.
  unfold interpret; rewrite Hok; unfold lifecycle; simpl.
  rewrite Hok, Ht, Hn; repeat split.
Qed.

Lemma success_path_witness :
  lifecycle SampleRuns.succeeded = Succeeded
  /\ result SampleRuns.succeeded = Some SampleRuns.successReport
  /\ progress SampleRuns.succeeded = 100%Q
  /\ toasts SampleRuns.succeeded = ToastSuccess "Video analysis completed!" :: toasts init
  /\ progressInterval SampleRuns.succeeded = false
  /\ resetTimeouts SampleRuns.succeeded = S (resetTimeouts init)
  /\ progress (step SampleRuns.succeeded ResetFired) = 0%Q
  /\ result (step SampleRuns.succeeded ResetFired) = Some SampleRuns.successReport
  /\ lifecycle (step SampleRuns.succeeded ResetFired) = Succeeded.
Proof.
  apply (success_path Scenario.clip "technical_analysis" None init [(35 # 4)%Q]
                      500%Z SampleRuns.successReport);
    reflexivity.
Defined.

(** X20.  A submission made where no interval of an earlier one is still
    scheduled, and answered by a payload that does not report success, ends
    in the state Failed with the payload stored as it came and the
    progress value at 100; the toast is the payload's [error] when that is a
    non-empty string and "Analysis failed" otherwise, whatever else (a
    [detail], for one) the payload carries. *)
Theorem remote_failure_path :
  forall (file : File) (analysisType : string) (customPrompt : option string)
         (s0 : State) (rs : list Q) (status : Z) (payload : Payload),
    progressInterval s0 = false ->
    accepted analysisType customPrompt ->
    success payload = false ->
    let s := run (analyzeVideo (Some file) analysisType customPrompt s0)
                 (map Tick rs
                      ++ [FetchResolved (mkResponse status (JsonObject payload));
                          JsonSettled]) in
    lifecycle s = Failed
    /\ result s = Some payload
    /\ progress s = 100%Q
    /\ toasts s = ToastError (Js.or_else (error payload) "Analysis failed") :: toasts s0
    /\ (Js.truthy (error payload) = false ->
        toasts s = ToastError "Analysis failed" :: toasts s0)
    /\ progressInterval s = false.
Proof.
  intros file analysisType customPrompt s0 rs status payload _ Hacc Hko s.
  unfold s; rewrite run_app, (analyzeVideo_accepted _ _ _ _ Hacc).
  set (s1 := mkState _ _ _ _ _ _ _ _).
  destruct (ticks_frame rs s1) as (_ & _ & Ht & _ & Hc & Hn).
  unfold run at 1; simpl; rewrite Hc; simpl.
  unfold interpret; rewrite Hko; unfold lifecycle; simpl.
  rewrite Hko, Ht; repeat split.
  intros Hfalsy; f_equal; f_equal.
  unfold Js.truthy, Js.or_else in *.
  destruct (error payload) as [e|]; [|reflexivity].
  destruct (String.eqb e ""); [reflexivity | discriminate].
Qed.

Lemma remote_failure_path_witness :
  lifecycle SampleRuns.detailOnly = Failed
  /\ result SampleRuns.detailOnly
     = Some (mkPayload false None None None None (Some "model unavailable"))
  /\ progress SampleRuns.detailOnly = 100%Q
  /\ toasts SampleRuns.detailOnly = [ToastError "Analysis failed"]
  /\ progressInterval SampleRuns.detailOnly = false.
Proof.
  destruct (remote_failure_path
              Scenario.clip "technical_analysis" None init [(35 # 4)%Q] 500%Z
              (mkPayload false None None None None (Some "model unavailable"))
              ltac:(reflexivity) ltac:(reflexivity) ltac:(reflexivity))
    as (H1 & H2 & H3 & _ & H5 & H6).
  split; [exact H1|]; split; [exact H2|]; split; [exact H3|].
  split; [apply H5; reflexivity | exact H6].
Defined.

(** X21.  A body that is the JSON value [null] ends exactly as a body that
    does not decode: reading [success] off it throws, and the [catch] block
    stores the network-error value. *)
Theorem null_body_is_a_transport_failure :
  (forall (s : State) (status status' : Z),
      run s [FetchResolved (mkResponse status JsonNull); JsonSettled]
      = run s [FetchResolved (mkResponse status' Undecodable); JsonSettled])
  /\ (forall (file : File) (analysisType : string) (customPrompt : option string)
             (s0 : State) (status : Z),
        accepted analysisType customPrompt ->
        let s := run (analyzeVideo (Some file) analysisType customPrompt s0)
                     [FetchResolved (mkResponse status JsonNull); JsonSettled] in
        lifecycle s = Failed
        /\ result s = Some (syntheticResult "Network error occurred" analysisType)
        /\ toasts s
           = ToastError "Failed to analyze video. Please check your connection."
               :: toasts s0).
Proof.
  split.
  - intros s status status'; unfold run; simpl.
    destruct (control s) as [|analysisType|analysisType response] eqn:E;
      simpl; rewrite ?E; reflexivity.
  - intros file analysisType customPrompt s0 status Hacc.
    rewrite (analyzeVideo_accepted _ _ _ _ Hacc); repeat split.
Qed.

Lemma null_body_is_a_transport_failure_witness :
  lifecycle SampleRuns.nullBody = Failed
  /\ result SampleRuns.nullBody
     = Some (syntheticResult "Network error occurred" "technical_analysis")
  /\ toasts SampleRuns.nullBody
     = ToastError "Failed to analyze video. Please check your connection."
         :: toasts init.
Proof.
  apply (proj2 null_body_is_a_transport_failure
               Scenario.clip "technical_analysis" None init 200%Z).
  reflexivity.
Defined.

(** X22.  A tick that finds the progress value at 90 or above sets it to 90
    and clears the interval; from then on ticks change nothing, so the value
    stays at 90 until the call settles. *)
Theorem progress_parks_at_ninety :
  forall (s : State) (r : Q),
    progressInterval s = true ->
    (90 <= progress s)%Q ->
    progress (step s (Tick r)) = 90%Q
    /\ progressInterval (step s (Tick r)) = false
    /\ control (step s (Tick r)) = control s
    /\ forall later : list Q, run (step s (Tick r)) (map Tick later) = step s (Tick r).
Proof.
  intros s r Hon Hge; apply Qle_bool_iff in Hge.
  assert (Hoff : progressInterval (step s (Tick r)) = false)
    by (simpl; unfold progressTick; rewrite Hon, Hge; reflexivity).
  split; [simpl; unfold progressTick; rewrite Hon, Hge; reflexivity|].
  split; [exact Hoff|].
  split; [apply tick_frame|].
  intros later; apply idle_ticks_change_nothing, Hoff.
Qed.

Lemma progress_parks_at_ninety_witness :
  progress (step Scenario.afterElevenTicks (Tick (7 # 1))) = 90%Q
  /\ progressInterval (step Scenario.afterElevenTicks (Tick (7 # 1))) = false
  /\ control (step Scenario.afterElevenTicks (Tick (7 # 1)))
     = control Scenario.afterElevenTicks
  /\ forall later : list Q,
      run (step Scenario.afterElevenTicks (Tick (7 # 1))) (map Tick later)
      = step Scenario.afterElevenTicks (Tick (7 # 1)).
Proof.
  apply (progress_parks_at_ninety Scenario.afterElevenTicks (7 # 1)%Q).
  - reflexivity.
  - vm_compute; discriminate.
Defined.

(** X23.  The form posted carries [video_file] and [analysis_type] always,
    and [custom_prompt] exactly when the type is "custom": then the prompt
    is present, not blank, and sent as typed (untrimmed); with any other
    type a prompt that was passed is left out. *)
Theorem form_carries_prompt_only_for_custom :
  (forall (file : File) (customPrompt : option string) (s0 : State),
      accepted "custom" customPrompt ->
      exists prompt,
        customPrompt = Some prompt /\ Js.trim prompt <> ""
        /\ fetches (analyzeVideo (Some file) "custom" customPrompt s0)
           = mkRequest "POST" "http://localhost:8000/analyze-video"
                       [("video_file", FormFile file);
                        ("analysis_type", FormText "custom");
                        ("custom_prompt", FormText prompt)]
             :: fetches s0)
  /\ (forall (file : File) (analysisType : string) (customPrompt : option string)
             (s0 : State),
        analysisType <> "custom" ->
        fetches (analyzeVideo (Some file) analysisType customPrompt s0)
        = mkRequest "POST" "http://localhost:8000/analyze-video"
                    [("video_file", FormFile file);
                     ("analysis_type", FormText analysisType)]
          :: fetches s0).
Proof.
  split.
  - intros file customPrompt s0 Hacc.
    rewrite (analyzeVideo_accepted _ _ _ _ Hacc).
    unfold accepted, promptMissing in Hacc; simpl in Hacc.
    destruct customPrompt as [prompt|]; [|discriminate].
    exists prompt; split; [reflexivity|]; split; [|reflexivity].
    simpl in Hacc; intros E; rewrite E in Hacc; discriminate.
  - intros file analysisType customPrompt s0 Hne.
    assert (E : String.eqb analysisType "custom" = false)
      by (apply String.eqb_neq, Hne).
    unfold analyzeVideo, formData; rewrite E; reflexivity.
Qed.

Lemma form_carries_prompt_only_for_custom_witness :
  (exists prompt,
      Some " What happens? " = Some prompt /\ Js.trim prompt <> ""
      /\ fetches (analyzeVideo (Some Scenario.clip) "custom" (Some " What happens? ") init)
         = mkRequest "POST" "http://localhost:8000/analyze-video"
                     [("video_file", FormFile Scenario.clip);
                      ("analysis_type", FormText "custom");
                      ("custom_prompt", FormText prompt)]
           :: fetches init)
  /\ fetches (analyzeVideo (Some Scenario.clip) "quiz_generation"
                           (Some "ignored") init)
     = mkRequest "POST" "http://localhost:8000/analyze-video"
                 [("video_file", FormFile Scenario.clip);
                  ("analysis_type", FormText "quiz_generation")]
       :: fetches init.
Proof.
  split.
  - apply (proj1 form_carries_prompt_only_for_custom
                 Scenario.clip (Some " What happens? ") init).
    reflexivity.
  - apply (proj2 form_carries_prompt_only_for_custom
                 Scenario.clip "quiz_generation" (Some "ignored") init).
    discriminate.
Defined.

End HookRuns.

(** ** The file-size formatter: whole units and unit boundaries *)
Section FormatFileSizeEdges.

Import VideoUploader.
Local Open Scope N_scope.

Lemma unitIndex_unique (bytes i : N) :
  k ^ i <= bytes -> bytes < k ^ (i + 1) -> unitIndex bytes = i.
Proof.
  intros Hlo Hhi.
  assert (Hpos : 0 < bytes) by (pose proof (k_pow_pos i); lia).
  destruct (unitIndex_spec bytes Hpos) as [Hlo' Hhi'].
  destruct (N.lt_trichotomy (unitIndex bytes) i) as [Hlt | [E | Hgt]]; [|exact E|].
  - assert (k ^ (unitIndex bytes + 1) <= k ^ i)
      by (apply N.pow_le_mono_r; [discriminate | lia]).
    lia.
  - assert (k ^ (i + 1) <= k ^ unitIndex bytes)
      by (apply N.pow_le_mono_r; [discriminate | lia]).
    lia.
Qed.

Lemma numberToString_whole (n : N) : numberToString (100 * n) = decimal n.
Proof.
  unfold numberToString.
  rewrite (N.mul_comm 100 n), N.div_mul, N.Div0.mod_mul by discriminate.
  apply append_empty.
Qed.

Lemma k_pow_succ (i : N) : k ^ (i + 1) = 1024 * k ^ i.
Proof. rewrite N.pow_add_r, N.pow_1_r; apply N.mul_comm. Qed.

(** X24.  A whole number [n] of units, [1 <= n < 1024], prints as [n]
    without decimals followed by that unit; in particular every size below
    1024 prints as the byte count followed by "Bytes". *)
Theorem whole_units_print_without_decimals :
  (forall n i : N,
      1 <= n -> n < 1024 ->
      formatFileSize (n * k ^ i)
      = (decimal n ++ " " ++ Js.to_string (unitLabel i))%string)
  /\ (forall bytes : N,
        bytes < 1024 -> formatFileSize bytes = (decimal bytes ++ " Bytes")%string).
Proof.
  assert (Hunits : forall n i : N,
             1 <= n -> n < 1024 ->
             formatFileSize (n * k ^ i)
             = (decimal n ++ " " ++ Js.to_string (unitLabel i))%string).
  { intros n i Hn1 Hn2.
    pose proof (k_pow_pos i) as Hd.
    assert (Hi : unitIndex (n * k ^ i) = i).
    { apply unitIndex_unique; [nia | rewrite k_pow_succ; nia]. }
    unfold formatFileSize.
    destruct (N.eqb_spec (n * k ^ i) 0) as [E | _]; [nia|].
    unfold hundredths; rewrite Hi.
    replace (200 * (n * k ^ i) + k ^ i) with ((200 * n + 1) * k ^ i) by lia.
    rewrite N.Div0.div_mul_cancel_r by lia.
    replace ((200 * n + 1) / 2) with (100 * n)
      by (apply (N.div_unique _ 2 _ 1); lia).
    rewrite numberToString_whole; reflexivity. }
  split; [exact Hunits|].
  intros bytes Hlt.
  destruct (N.eq_dec bytes 0) as [-> | Hne]; [reflexivity|].
  specialize (Hunits bytes 0 ltac:(lia) Hlt).
  rewrite N.pow_0_r, N.mul_1_r in Hunits; exact Hunits.
Qed.

Lemma whole_units_print_without_decimals_witness :
  formatFileSize (512 * k ^ 3) = "512 GB"%string
  /\ formatFileSize 1023 = "1023 Bytes"%string.
Proof.
  split.
  - apply (proj1 whole_units_print_without_decimals 512 3); vm_compute; congruence.
  - apply (proj2 whole_units_print_without_decimals 1023); reflexivity.
Defined.



End FormatFileSizeEdges.

(** ** The renderer on texts without line breaks, and behind [App] *)
Section RendererEdges.

Lemma split_without_separator_start (a : ascii) (rest s : string) :
  Js.occurs (String a "") s = false ->
  Js.split s (String a rest) = [s].
Proof.
  unfold Js.split; induction s as [|c s IH]; intros H; [reflexivity|].
  simpl in H; apply orb_false_iff in H as [Hc Hs].
  rewrite andb_true_r in Hc.
  simpl; rewrite Hc; simpl.
  rewrite (IH Hs); reflexivity.
Qed.

(** X26.  [formatResult] never returns an empty list and never an empty
    paragraph; a text without any newline (the empty text included) comes
    out as the single paragraph holding that text and no break. *)
Theorem formatResult_single_line :
  (forall text : string,
      ResultsDisplay.formatResult text <> []
      /\ Forall (fun p => ResultsDisplay.p_children p <> [])
                (ResultsDisplay.formatResult text))
  /\ (forall text : string,
        Js.occurs Js.newline text = false ->
        ResultsDisplay.formatResult text
        = [ResultsDisplay.mkP 0 [ResultsDisplay.Text text]]).
Proof.
  split.
  - intros text; unfold ResultsDisplay.formatResult, Js.mapi, Js.split.
    pose proof (split_go_not_nil (Js.newline ++ Js.newline) text 0) as Hne.
    destruct (Js.split_go (Js.newline ++ Js.newline) 0 text) as [|p ps];
      [congruence|].
    split; [discriminate|].
    apply Forall_mapi_from; intros j paragraph; simpl.
    pose proof (split_go_not_nil Js.newline paragraph 0) as Hl.
    unfold Js.mapi, Js.split.
    destruct (Js.split_go Js.newline 0 paragraph); [congruence | discriminate].
  - intros text H; unfold ResultsDisplay.formatResult.
    change (Js.newline ++ Js.newline)
      with (String (ascii_of_nat 10) Js.newline).
    rewrite (split_without_separator_start _ Js.newline text H).
    unfold Js.mapi; simpl Js.mapi_from.
    unfold ResultsDisplay.fragment.
    change Js.newline with (String (ascii_of_nat 10) "").
    rewrite (split_without_separator_start _ "" text H); reflexivity.
Qed.

Lemma formatResult_single_line_witness :
  ResultsDisplay.formatResult "No line breaks here."
  = [ResultsDisplay.mkP 0 [ResultsDisplay.Text "No line breaks here."]].
Proof.
  apply (proj2 formatResult_single_line "No line breaks here."); reflexivity.
Defined.

(** X27.  [handleAnalyze] stores the JSON object a 2xx answer carries as
    its body without reading the [success] flag, and the page hands it to the
    results component with no message: a body with a [result] text is
    rendered with its description and the formatted text even when it
    reports a failure, and on a body without [result] the component throws. *)
Theorem any_resolved_body_is_displayed :
  forall (s : App.State) (file : File) (responseData : Payload),
    App.selectedFile s = Some file -> App.analysisType s <> "" ->
    let s' := fst (App.handleAnalyze (Api.AxiosResolved responseData) s) in
    AppHandlers.rightColumn s' = [AppHandlers.ResultsPanel responseData]
    /\ AppHandlers.errorBanner s' = None
    /\ (forall text : string,
          Data.result responseData = Some text ->
          ResultsDisplay.render responseData
          = Returned (ResultsDisplay.mkView (analysis_description responseData)
                                            (ResultsDisplay.formatResult text)))
    /\ (Data.result responseData = None ->
        exists message, ResultsDisplay.render responseData = Thrown message).
Proof.
  intros s file responseData Hf Ht s'; unfold s', App.handleAnalyze.
  rewrite (handleAnalyze_accepts s file Hf Ht).
  split; [reflexivity|]; split; [reflexivity|].
  unfold ResultsDisplay.render; split.
  - intros text Hr; rewrite Hr; reflexivity.
  - intros Hr; rewrite Hr; eexists; reflexivity.
Qed.

Lemma any_resolved_body_is_displayed_witness :
  AppHandlers.rightColumn
    (fst (App.handleAnalyze (Api.AxiosResolved SampleRuns.partialReport) Scenario.ready))
  = [AppHandlers.ResultsPanel SampleRuns.partialReport]
  /\ AppHandlers.errorBanner
       (fst (App.handleAnalyze (Api.AxiosResolved SampleRuns.partialReport) Scenario.ready))
     = None
  /\ ResultsDisplay.render SampleRuns.partialReport
     = Returned (ResultsDisplay.mkView (Some "Technical")
                                       (ResultsDisplay.formatResult "Partial text")).
Proof.
  destruct (any_resolved_body_is_displayed
              Scenario.ready Scenario.clip SampleRuns.partialReport
              ltac:(reflexivity) ltac:(discriminate))
    as (H1 & H2 & H3 & _).
  split; [exact H1|]; split; [exact H2|].
  apply (H3 "Partial text"); reflexivity.
Defined.

End RendererEdges.

(** ** More on the page and the options list *)
Section PageOutputs.

Import AppHandlers.

Lemma deliver_keeps_outputs_consistent (u : Session) (e : UserEvent) :
  settled_or_loading u -> outputs_consistent (page u) ->
  outputs_consistent (page (deliver u e)).
Proof.
  unfold settled_or_loading, outputs_consistent; intros Hn [Hl Hx].
  destruct e as [| |acceptedFiles| |key|outcome]; simpl.
  - destruct (analyzeDisabled (page u)) eqn:E; [split; assumption|].
    destruct (analyzeDisabled_false _ E) as (file & Hf & Ht & _).
    rewrite (handleAnalyze_accepts _ file Hf Ht); simpl; auto.
  - unfold resetDisabled; destruct (App.loading (page u)) eqn:E; simpl; auto.
  - destruct (App.selectedFile (page u)); [split; assumption|]; simpl.
    unfold onDrop; destruct (0 <? List.length acceptedFiles)%nat; simpl; auto.
  - destruct (App.selectedFile (page u)); simpl; auto.
  - split; assumption.
  - destruct (outstanding u) as [|n] eqn:E; [split; assumption|]; simpl.
    destruct (App.loading (page u)); [|discriminate].
    destruct (Hl eq_refl) as [Hr He].
    split; [discriminate|].
    destruct outcome as [responseData | response]; simpl; auto.
Qed.

(** X11.  On the page driven by its buttons, the uploader, the options and
    the settling calls, results and an error message are never set together,
    and while a call is awaited neither is set. *)
Theorem page_never_mixes_results_and_error :
  forall events : list UserEvent,
    (if App.loading (page (session events))
     then App.results (page (session events)) = None
          /\ App.error (page (session events)) = None
     else App.results (page (session events)) = None
          \/ App.error (page (session events)) = None).
Proof.
  intros events.
  assert (H : (settled_or_loading (session events)
               /\ well_formed_calls (session events))
              /\ outputs_consistent (page (session events))).
  { unfold session.
    assert (H0 : (settled_or_loading start /\ well_formed_calls start)
                 /\ outputs_consistent (page start)).
    { split; [split; [reflexivity | constructor]|].
      split; [discriminate | left; reflexivity]. }
    revert H0; generalize start; induction events as [|e events IH];
      intros u [Hc Ho]; [split; assumption|].
    apply IH; split.
    - apply deliver_keeps_invariants, Hc.
    - apply deliver_keeps_outputs_consistent; [apply Hc | exact Ho]. }
  destruct H as [_ [Hl Hx]].
  destruct (App.loading (page (session events))); [apply Hl; reflexivity | exact Hx].
Qed.

End PageOutputs.
